(** * RealPNL bot: the command handlers of main.py and their contracts

    The handlers of [main.py] are embedded as programs of a small
    state-and-exception monad.  The process state holds what the module keeps
    at top level (the [bot] global, the environment read by [os.getenv]); the
    requests a handler makes to the outside (answers, the [get_chat] lookup,
    log records) are collected, in order, in a trace.  The platform may
    refuse any request: the answer to a lookup and the verdict on each send
    are parameters of the handlers. *)

From Stdlib Require Import List NArith Bool Arith Lia String Ascii.
From ExtLib Require Import Structures.Monad Structures.MonadExc.
Import ListNotations.
Import MonadNotation.
Local Open Scope monad_scope.
Local Open Scope list_scope.

(** ** Python strings

    A Python [str] is a sequence of Unicode code points; [len], slicing and
    [in] count code points, so this is the representation used here. *)

Module PyStr.

Definition char := N.
Definition str := list char.

(** Literals are written as in the source and decoded from their UTF-8
    bytes: a lead byte opens a code point, a continuation byte extends the
    one being read. *)
Definition utf8_push (acc : str) (b : N) : str :=
  if (b <? 128)%N then b :: acc
  else if (b <? 192)%N then
    match acc with
    | c :: acc' => (c * 64 + (b - 128))%N :: acc'
    | [] => []
    end
  else if (b <? 224)%N then (b - 192)%N :: acc
  else if (b <? 240)%N then (b - 224)%N :: acc
  else (b - 240)%N :: acc.

Definition utf8 (s : string) : str :=
  rev (fold_left utf8_push (map N_of_ascii (list_ascii_of_string s)) []).
Arguments utf8 s%_string.

Definition nl : str := [10%N].

Fixpoint str_eqb (a b : str) : bool :=
  match a, b with
  | [], [] => true
  | x :: a', y :: b' => (x =? y)%N && str_eqb a' b'
  | _, _ => false
  end.

(** [s.startswith(p)] *)
Fixpoint startswith (p s : str) : bool :=
  match p, s with
  | [], _ => true
  | x :: p', y :: s' => (x =? y)%N && startswith p' s'
  | _ :: _, [] => false
  end.

(** [needle in hay] *)
Fixpoint contains (needle hay : str) : bool :=
  startswith needle hay ||
  match hay with
  | [] => false
  | _ :: hay' => contains needle hay'
  end.

(** [str.isspace] on one code point: the code points CPython's
    [Py_UNICODE_ISSPACE] accepts. *)
Definition isspace (c : char) : bool :=
  ((9 <=? c) && (c <=? 13) || (28 <=? c) && (c <=? 32) ||
   (c =? 133) || (c =? 160) || (c =? 5760) ||
   (8192 <=? c) && (c <=? 8202) ||
   (c =? 8232) || (c =? 8233) || (c =? 8239) || (c =? 8287) ||
   (c =? 12288))%N.

Fixpoint drop_while (f : char -> bool) (s : str) : str :=
  match s with
  | [] => []
  | c :: s' => if f c then drop_while f s' else s
  end.

Fixpoint take_while (f : char -> bool) (s : str) : str :=
  match s with
  | [] => []
  | c :: s' => if f c then c :: take_while f s' else []
  end.

Definition lstrip (s : str) : str := drop_while isspace s.
Definition rstrip (s : str) : str := rev (drop_while isspace (rev s)).

(** [s.strip()] *)
Definition strip (s : str) : str := rstrip (lstrip s).

(** [s.split(maxsplit=1)], after CPython's whitespace splitter: skip the
    leading whitespace, cut the first word, skip the whitespace behind it,
    and keep whatever is left, trailing whitespace included, as the second
    and last element. *)
Definition split_maxsplit1 (s : str) : list str :=
  match lstrip s with
  | [] => []
  | c :: w =>
      let word := c :: take_while (fun x => negb (isspace x)) w in
      match lstrip (drop_while (fun x => negb (isspace x)) w) with
      | [] => [word]
      | rest => [word; rest]
      end
  end.

(** [str.lower] on one code point.  The ASCII capitals move to their small
    letters; the two code points outside ASCII whose lower case contains an
    ASCII letter (U+0130 and the Kelvin sign U+212A) are mapped as CPython
    does.  Every other code point outside ASCII is left in place: CPython
    sends it to code points outside ASCII again, so the ASCII content of the
    result, which is all the handlers look at, is the same. *)
Definition lower_char (c : char) : str :=
  if ((65 <=? c) && (c <=? 90))%N then [(c + 32)%N]
  else if (c =? 304)%N then [105%N; 775%N]
  else if (c =? 8490)%N then [107%N]
  else [c].

Definition lower (s : str) : str := flat_map lower_char s.

Definition upper_ascii (c : char) : char :=
  if ((97 <=? c) && (c <=? 122))%N then (c - 32)%N else c.

(** [s.capitalize()]: first code point to upper case, the others to lower
    case.  The upper-casing is that of ASCII, which covers the chat types of
    the platform ("private", "group", "supergroup", "channel"). *)
Definition capitalize (s : str) : str :=
  match s with
  | [] => []
  | c :: s' => upper_ascii c :: lower s'
  end.

(** Truth value of a string in a condition: non-empty. *)
Definition truthy (s : str) : bool :=
  match s with
  | [] => false
  | _ :: _ => true
  end.

(** [x or default] on an optional string: [None] and the empty string give
    the default. *)
Definition or_default (x : option str) (default : str) : str :=
  match x with
  | Some s => if truthy s then s else default
  | None => default
  end.

(** [sep.join(parts)] *)
Fixpoint join (sep : str) (parts : list str) : str :=
  match parts with
  | [] => []
  | [p] => p
  | p :: ps => p ++ sep ++ join sep ps
  end.

End PyStr.
Import PyStr.

(** ** The platform's objects, as far as the handlers use them *)

Record WebAppInfo := { url : str }.

Record InlineKeyboardButton := {
  btn_text : str;
  web_app : option WebAppInfo;
  callback_data : option str
}.

(** [InlineKeyboardMarkup(inline_keyboard=rows)] *)
Definition InlineKeyboardMarkup := list (list InlineKeyboardButton).

(** An inbound message.  [text] is optional on the platform's type: a photo
    whose caption is a command has none. *)
Record Message := { msg_chat : N; msg_text : option str }.

Record CallbackQuery := { cb_id : N; data : str; cb_message : Message }.

(** What [bot.get_chat] returns: the fields the report reads. *)
Record Chat := {
  chat_type : str;
  title : option str;
  description : option str
}.

(** An exception of class [Exception], the ones [except Exception] catches,
    as far as the handlers look at it: the text [str(e)]. *)
Record exn := { exn_str : str }.

Record Bot := { token : str }.

(** The sending side of the platform: its verdict on a [sendMessage] for a
    chat, a text and a keyboard, and on an [answerCallbackQuery] for a query.
    [None] accepts the request; [Some e] refuses it, and the client raises
    [e] (a text the platform cannot parse, a button address it does not
    allow, a network failure). *)
Record Transport := {
  send_verdict : N -> str -> option InlineKeyboardMarkup -> option exn;
  callback_verdict : N -> option exn
}.

(** ** Process state and effects *)

(** Module-level state: the [bot] global, [None] until [main] assigns it,
    and the environment [os.getenv] reads. *)
Record Process := {
  bot : option Bot;
  environ : list (str * str)
}.

(** The requests a handler makes, in the order it makes them.  A request is
    recorded whether the platform accepts it or not. *)
Inductive event :=
| Answer (chat : N) (text : str) (reply_markup : option InlineKeyboardMarkup)
| GetChat (chat_id : str)
| LogError (record : str)
| AnswerCallback (query : N).

Record State := { proc : Process; trace : list event }.

Inductive Outcome (A : Type) :=
| Returned (a : A)
| Raised (e : exn).
Arguments Returned {A} a.
Arguments Raised {A} e.

(** A handler body: runs on a state, returns or raises, and leaves a state.
    What was done before an exception stays done. *)
Definition Handler (A : Type) : Type := State -> Outcome A * State.

Definition hret {A} (a : A) : Handler A := fun s => (Returned a, s).

Definition hbind {A B} (m : Handler A) (k : A -> Handler B) : Handler B :=
  fun s =>
    match m s with
    | (Returned a, s') => k a s'
    | (Raised e, s') => (Raised e, s')
    end.

Definition hraise {A} (e : exn) : Handler A := fun s => (Raised e, s).

(** [try: m  except Exception as e: h e] *)
Definition htry {A} (m : Handler A) (h : exn -> Handler A) : Handler A :=
  fun s =>
    match m s with
    | (Returned a, s') => (Returned a, s')
    | (Raised e, s') => h e s'
    end.

#[export] Instance Monad_Handler : Monad Handler :=
  {| ret := @hret; bind := @hbind |}.

#[export] Instance Exc_Handler : MonadExc exn Handler :=
  {| raise := @hraise; catch := @htry |}.

Definition emit (e : event) : Handler unit :=
  fun s => (Returned tt, {| proc := proc s; trace := trace s ++ [e] |}).

(** Runs a handler in a process, from an empty trace. *)
Definition run {A} (h : Handler A) (p : Process) : Outcome A * State :=
  h {| proc := p; trace := [] |}.

Definition AttributeError (attr : str) : exn :=
  {| exn_str := utf8 "'NoneType' object has no attribute '" ++ attr ++ utf8 "'" |}.

(** How an awaited request ends: it returns when the platform accepted it
    and raises the client's exception when it did not. *)
Definition outcome_of (verdict : option exn) : Outcome unit :=
  match verdict with
  | None => Returned tt
  | Some e => Raised e
  end.

(** [logger.error(record)] *)
Definition logger_error (record : str) : Handler unit := emit (LogError record).

(** [message.text], about to be used as a string. *)
Definition text_of (message : Message) (attr : str) : Handler str :=
  match msg_text message with
  | Some t => ret t
  | None => raise (AttributeError attr)
  end.

Fixpoint env_lookup (key : str) (env : list (str * str)) : option str :=
  match env with
  | [] => None
  | (k, v) :: env' => if str_eqb k key then Some v else env_lookup key env'
  end.

(** [os.getenv(key, default)] *)
Definition os_getenv (key default : str) : Handler str :=
  fun s =>
    (Returned match env_lookup key (environ (proc s)) with
              | Some v => v
              | None => default
              end, s).

(** [main], up to the start of polling, on the environment as [load_dotenv]
    has left it: without a token it raises, with one it assigns the [bot]
    global.  The client's own check of the token's format is not modelled. *)
Definition main_init : Handler unit :=
  fun s =>
    match env_lookup (utf8 "BOT_TOKEN") (environ (proc s)) with
    | Some (c :: tok) =>
        (Returned tt,
         {| proc := {| bot := Some {| token := c :: tok |};
                       environ := environ (proc s) |};
            trace := trace s |})
    | _ => (Raised {| exn_str := utf8 "BOT_TOKEN is required" |}, s)
    end.

Section Handlers.

Variable transport : Transport.

(** The platform's answer to a [getChat] request for an identifier: the chat,
    or the exception the client raises. *)
Variable telegram : str -> exn + Chat.

(** [await message.answer(text, reply_markup=...)]: the request is made, and
    the call returns or raises as the platform decides. *)
Definition message_answer (message : Message) (text : str)
    (reply_markup : option InlineKeyboardMarkup) : Handler unit :=
  fun s =>
    (outcome_of (send_verdict transport (msg_chat message) text reply_markup),
     {| proc := proc s;
        trace := trace s ++ [Answer (msg_chat message) text reply_markup] |}).

(** [await callback.answer()] *)
Definition callback_answer (callback : CallbackQuery) : Handler unit :=
  fun s =>
    (outcome_of (callback_verdict transport (cb_id callback)),
     {| proc := proc s; trace := trace s ++ [AnswerCallback (cb_id callback)] |}).

(** [bot.get_chat(chat_id)] on the module's [bot] global. *)
Definition bot_get_chat (chat_id : str) : Handler Chat :=
  fun s =>
    match bot (proc s) with
    | None => (Raised (AttributeError (utf8 "get_chat")), s)
    | Some _ =>
        let s' := {| proc := proc s; trace := trace s ++ [GetChat chat_id] |} in
        match telegram chat_id with
        | inl e => (Raised e, s')
        | inr chat => (Returned chat, s')
        end
    end.

(** *** /start *)

Definition MINI_APP_URL : str := utf8 "MINI_APP_URL".
Definition default_mini_app_url : str := utf8 "https://logiccrafterdz.github.io/realpnl/".

Definition config_error_text : str := utf8 "⚠️ Configuration error: MINI_APP_URL not set.".

Definition welcome_text : str :=
  join nl [
    [];
    utf8 "🔍 <b>Welcome to RealPNL</b>";
    [];
    utf8 "The privacy-first crypto trade analyzer.";
    [];
    utf8 "<b>What I can do:</b>";
    utf8 "📊 Analyze your trade history (CSV upload)";
    utf8 "📈 Calculate real P&L after fees";
    utf8 "🔄 Compare trading vs HODL returns";
    utf8 "✅ Verify bot/channel activity";
    [];
    utf8 "<i>🔒 All your trade data stays on your device. ";
    utf8 "I never see or store your trades.</i>";
    [];
    utf8 "Choose an action below:";
    []
  ].

Definition web_app_button (label target : str) : InlineKeyboardButton :=
  {| btn_text := label; web_app := Some {| url := target |}; callback_data := None |}.

Definition callback_button (label ident : str) : InlineKeyboardButton :=
  {| btn_text := label; web_app := None; callback_data := Some ident |}.

Definition start_keyboard (mini_app_url : str) : InlineKeyboardMarkup :=
  [ [ web_app_button (utf8 "📊 Upload CSV") mini_app_url ];
    [ callback_button (utf8 "✅ Verify Bot/Channel") (utf8 "verify_help") ];
    [ callback_button (utf8 "❓ Help") (utf8 "help") ] ].

Definition cmd_start (message : Message) : Handler unit :=
  mini_app_url <- os_getenv MINI_APP_URL default_mini_app_url ;;
  if negb (truthy mini_app_url) then
    message_answer message config_error_text None
  else
    message_answer message welcome_text (Some (start_keyboard mini_app_url)).

(** *** /upload *)

Definition upload_text : str :=
  utf8 "📊 <b>Upload Trade History</b>" ++ nl ++ nl ++
  utf8 "Click the button below to open the analyzer and upload your CSV file." ++ nl ++ nl ++
  utf8 "<i>Required columns: date, symbol, action, price, amount</i>".

Definition upload_keyboard (mini_app_url : str) : InlineKeyboardMarkup :=
  [ [ web_app_button (utf8 "📊 Open Trade Analyzer") mini_app_url ] ].

Definition cmd_upload (message : Message) : Handler unit :=
  mini_app_url <- os_getenv MINI_APP_URL default_mini_app_url ;;
  message_answer message upload_text (Some (upload_keyboard mini_app_url)).

(** *** /report *)

Definition report_text : str :=
  utf8 "📊 <b>Your Report</b>" ++ nl ++ nl ++
  utf8 "If you have previously uploaded trades, your report is saved locally in the Mini App." ++ nl ++ nl ++
  utf8 "Click below to view:".

Definition report_keyboard (mini_app_url : str) : InlineKeyboardMarkup :=
  [ [ web_app_button (utf8 "📊 Open Report") mini_app_url ] ].

Definition cmd_report (message : Message) : Handler unit :=
  mini_app_url <- os_getenv MINI_APP_URL default_mini_app_url ;;
  message_answer message report_text (Some (report_keyboard mini_app_url)).

(** *** /verify *)

Definition usage_text : str :=
  utf8 "⚠️ <b>Usage:</b> <code>/verify @username</code>" ++ nl ++ nl ++
  utf8 "Example: <code>/verify @dexscreener</code>".

(** Lines 129 to 133: the argument stripped of surrounding whitespace, then
    of one leading [@] if it has one. *)
Definition normalize_username (arg : str) : str :=
  let username := strip arg in
  if startswith (utf8 "@") username then skipn 1 username else username.

Definition checking_text (username : str) : str :=
  utf8 "🔍 Checking @" ++ username ++ utf8 "...".

(** Truth value of a chat object in a condition: the platform's objects
    define neither [__bool__] nor [__len__], so every one of them is true. *)
Definition chat_truthy (chat : Chat) : bool := true.

(** The f-string that opens the report. *)
Definition response_head (username : str) (chat : Chat) : str :=
  let status :=
    if chat_truthy chat then utf8 "✅ Active" else utf8 "❌ Not found" in
  nl ++ utf8 "📊 <b>Verification Report: @" ++ username ++ utf8 "</b>" ++ nl ++
  nl ++
  status ++ nl ++
  utf8 "📌 Type: " ++
    (if truthy (chat_type chat) then capitalize (chat_type chat) else utf8 "Unknown") ++ nl ++
  utf8 "👥 Title: " ++ or_default (title chat) (utf8 "N/A") ++ nl.

(** [description[:100] + "..." if len(description) > 100 else description] *)
Definition truncate_description (d : str) : str :=
  if 100 <? List.length d then firstn 100 d ++ utf8 "..." else d.

Definition bio_line (desc : str) : str :=
  utf8 "📝 Bio: <i>" ++ desc ++ utf8 "</i>" ++ nl.

Definition response_foot : str :=
  join nl [
    [];
    utf8 "🔍 <b>Public Alerts:</b> None detected";
    [];
    utf8 "<i>ℹ️ Note: Full message history requires channel admin access.</i>";
    []
  ].

Definition build_response (username : str) (chat : Chat) : str :=
  let response := response_head username chat in
  let response :=
    match description chat with
    | Some d =>
        if truthy d then response ++ bio_line (truncate_description d)
        else response
    | None => response
    end in
  response ++ response_foot.

Definition cannot_verify_text (username : str) : str :=
  utf8 "❌ <b>Cannot verify @" ++ username ++ utf8 "</b>" ++ nl ++ nl ++
  utf8 "Possible reasons:" ++ nl ++
  utf8 "• Username doesn't exist" ++ nl ++
  utf8 "• Channel/bot is private" ++ nl ++
  utf8 "• Username is misspelled".

Definition error_checking_text (username : str) : str :=
  utf8 "⚠️ <b>Error checking @" ++ username ++ utf8 "</b>" ++ nl ++ nl ++
  utf8 "Private channels and bots cannot be verified." ++ nl ++
  utf8 "Only public channels are supported.".

Definition error_log_record (username : str) (e : exn) : str :=
  utf8 "Error verifying " ++ username ++ utf8 ": " ++ exn_str e.

(** The [except] clause: classification of [str(e).lower()]. *)
Definition is_not_found (e : exn) : bool :=
  let error_msg := lower (exn_str e) in
  contains (utf8 "chat not found") error_msg || contains (utf8 "bad request") error_msg.

Definition cmd_verify (message : Message) : Handler unit :=
  text <- text_of message (utf8 "split") ;;
  let args := split_maxsplit1 text in
  if List.length args <? 2 then
    message_answer message usage_text None
  else
    let username := normalize_username (nth 1 args []) in
    message_answer message (checking_text username) None ;;
    catch
      (chat <- bot_get_chat (utf8 "@" ++ username) ;;
       message_answer message (build_response username chat) None)
      (fun e =>
         if is_not_found e then
           message_answer message (cannot_verify_text username) None
         else
           logger_error (error_log_record username e) ;;
           message_answer message (error_checking_text username) None).

(** *** /help and the two button callbacks *)

Definition help_text : str :=
  join nl [
    [];
    utf8 "📚 <b>RealPNL Help</b>";
    [];
    utf8 "<b>Commands:</b>";
    utf8 "/start - Welcome & main menu";
    utf8 "/upload - Upload CSV trade history";
    utf8 "/verify @username - Check bot/channel activity";
    utf8 "/report - View your saved report";
    utf8 "/help - Show this help";
    [];
    utf8 "<b>CSV Format:</b>";
    utf8 "Your file should have these columns:";
    utf8 "• <code>date</code> - Trade timestamp (YYYY-MM-DD HH:MM:SS)";
    utf8 "• <code>symbol</code> - Token symbol (BTC, ETH, PEPE, etc.)";
    utf8 "• <code>action</code> - buy or sell";
    utf8 "• <code>price</code> - Price in USD";
    utf8 "• <code>amount</code> - Quantity traded";
    utf8 "• <code>fee_usd</code> - (Optional) Fee in USD";
    [];
    utf8 "<b>Privacy:</b>";
    utf8 "🔒 All trade data is processed in your browser";
    utf8 "🔒 Nothing is sent to our servers";
    utf8 "🔒 Reports are encrypted with your password";
    [];
    utf8 "<b>Need help?</b>";
    utf8 "Contact @your_support_username";
    []
  ].

Definition send_help (message : Message) : Handler unit :=
  message_answer message help_text None.

Definition cmd_help (message : Message) : Handler unit :=
  send_help message.

Definition callback_help (callback : CallbackQuery) : Handler unit :=
  send_help (cb_message callback) ;;
  callback_answer callback.

Definition verify_help_text : str :=
  utf8 "✅ <b>How to Verify a Bot/Channel</b>" ++ nl ++ nl ++
  utf8 "Use the command:" ++ nl ++
  utf8 "<code>/verify @username</code>" ++ nl ++ nl ++
  utf8 "Examples:" ++ nl ++
  utf8 "• <code>/verify @dexscreener</code>" ++ nl ++
  utf8 "• <code>/verify @whale_alert</code>" ++ nl ++ nl ++
  utf8 "<i>Only public channels can be verified.</i>".

Definition callback_verify_help (callback : CallbackQuery) : Handler unit :=
  message_answer (cb_message callback) verify_help_text None ;;
  callback_answer callback.

(** The callback-query routes of the router: [F.data == "help"] and
    [F.data == "verify_help"], tried in the order of registration; a query
    that matches neither fires no handler. *)
Definition route_callback (callback : CallbackQuery) : Handler unit :=
  if str_eqb (data callback) (utf8 "help") then callback_help callback
  else if str_eqb (data callback) (utf8 "verify_help") then callback_verify_help callback
  else ret tt.

End Handlers.

(** ** The health-check endpoint *)

Module HealthCheckHandler.

(** What a request handler has written so far: the status line, the headers
    queued for the response, whether they are closed, and the body. *)
Record Exchange := {
  status : option N;
  headers : list (str * str);
  headers_ended : bool;
  wfile : list Byte.byte
}.

Definition fresh : Exchange :=
  {| status := None; headers := []; headers_ended := false; wfile := [] |}.

Definition send_response_only (code : N) (x : Exchange) : Exchange :=
  {| status := Some code; headers := headers x;
     headers_ended := headers_ended x; wfile := wfile x |}.

Definition send_header (keyword value : str) (x : Exchange) : Exchange :=
  {| status := status x; headers := headers x ++ [(keyword, value)];
     headers_ended := headers_ended x; wfile := wfile x |}.

Section Request.

(** What [self.version_string()] and [self.date_time_string()] give while the
    request is served. *)
Variable version_string : str.
Variable date_time_string : str.

(** The inherited [send_response]: [log_request] first, which ends in the
    handler's own [log_message] and so does nothing, then the status line
    and the Server and Date headers. *)
Definition send_response (code : N) (x : Exchange) : Exchange :=
  let x := send_response_only code x in
  let x := send_header (utf8 "Server") version_string x in
  send_header (utf8 "Date") date_time_string x.

Definition end_headers (x : Exchange) : Exchange :=
  {| status := status x; headers := headers x;
     headers_ended := true; wfile := wfile x |}.

Definition wfile_write (b : list Byte.byte) (x : Exchange) : Exchange :=
  {| status := status x; headers := headers x;
     headers_ended := headers_ended x; wfile := wfile x ++ b |}.

(** [HealthCheckHandler.do_GET], on the request's [self.path]. *)
Definition do_GET (path : str) (x : Exchange) : Exchange :=
  if str_eqb path (utf8 "/health") then
    let x := send_response 200 x in
    let x := send_header (utf8 "Content-type") (utf8 "text/plain") x in
    let x := end_headers x in
    wfile_write (list_byte_of_string "OK") x
  else
    let x := send_response 404 x in
    end_headers x.

End Request.

End HealthCheckHandler.

(** ** Reading a trace *)

Definition replies (t : list event) : list str :=
  flat_map (fun e => match e with Answer _ text _ => [text] | _ => [] end) t.

Definition lookups (t : list event) : list str :=
  flat_map (fun e => match e with GetChat chat_id => [chat_id] | _ => [] end) t.

Definition log_records (t : list event) : list str :=
  flat_map (fun e => match e with LogError r => [r] | _ => [] end) t.

Definition text_message (chat : N) (t : str) : Message :=
  {| msg_chat := chat; msg_text := Some t |}.

(** A reply of a command handler to the chat [c]: text only, no keyboard. *)
Definition plain_reply_to (c : N) (e : event) : Prop :=
  match e with
  | Answer c' _ markup => c' = c /\ markup = None
  | AnswerCallback _ => False
  | GetChat _ | LogError _ => True
  end.

(** ** Reading a keyboard *)

Definition buttons (kb : InlineKeyboardMarkup) : list InlineKeyboardButton :=
  List.concat kb.

Definition callback_idents (kb : InlineKeyboardMarkup) : list str :=
  flat_map (fun b => match callback_data b with Some d => [d] | None => [] end)
    (buttons kb).

Definition web_app_urls (kb : InlineKeyboardMarkup) : list str :=
  flat_map (fun b => match web_app b with Some w => [url w] | None => [] end)
    (buttons kb).

(** The address [os.getenv("MINI_APP_URL", default)] gives in a process. *)
Definition effective_url (p : Process) : str :=
  match env_lookup MINI_APP_URL (environ p) with
  | Some v => v
  | None => default_mini_app_url
  end.

(** A platform that accepts every send and every answer to a callback
    query. *)
Definition accepts (tp : Transport) : Prop :=
  (forall c text markup, send_verdict tp c text markup = None) /\
  (forall q, callback_verdict tp q = None).

(** ** A small world to run the handlers in *)

Definition reliable : Transport :=
  {| send_verdict := fun _ _ _ => None; callback_verdict := fun _ => None |}.

Definition cannot_parse : exn :=
  {| exn_str := utf8 "Telegram server says - Bad Request: can't parse entities" |}.

(** A platform that, like the real one in HTML parse mode, refuses a text
    in which [<] opens something that is no tag; here, the text "<3". *)
Definition html_strict : Transport :=
  {| send_verdict := fun _ text _ =>
       if contains (utf8 "<3") text then Some cannot_parse else None;
     callback_verdict := fun _ => None |}.

Definition heart : Chat :=
  {| chat_type := utf8 "channel"; title := Some (utf8 "Crypto <3"); description := None |}.

(** A platform on which every identifier is the public channel [heart]. *)
Definition heart_telegram (chat_id : str) : exn + Chat := inr heart.

Definition sample_bot : Bot := {| token := utf8 "0000:sample" |}.

Definition sample_process : Process := {| bot := Some sample_bot; environ := [] |}.

(** The process with [MINI_APP_URL] set, but to the empty string. *)
Definition empty_url_process : Process :=
  {| bot := Some sample_bot; environ := [(MINI_APP_URL, [])] |}.

Definition dexscreener : Chat :=
  {| chat_type := utf8 "channel";
     title := Some (utf8 "DexScreener");
     description := Some (repeat 100%N 120) |}.

Definition untitled : Chat :=
  {| chat_type := utf8 "channel"; title := Some (utf8 "Untitled"); description := Some [] |}.

Definition chat_not_found : exn :=
  {| exn_str := utf8 "Telegram server says - Bad Request: chat not found" |}.

Definition timed_out : exn := {| exn_str := utf8 "HTTP Client says - Request timeout error" |}.

(** A platform that knows two public chats and is unreachable for the
    identifier "@slow". *)
Definition sample_telegram (chat_id : str) : exn + Chat :=
  if str_eqb chat_id (utf8 "@dexscreener") then inr dexscreener
  else if str_eqb chat_id (utf8 "@untitled") then inr untitled
  else if str_eqb chat_id (utf8 "@slow") then inl timed_out
  else inl chat_not_found.

(** ** The string operations on examples *)

Example utf8_ascii : utf8 "/verify @" = [47; 118; 101; 114; 105; 102; 121; 32; 64]%N.
Proof. reflexivity. Qed.

Example utf8_emoji : utf8 "🔍•⚠️" = [128269; 8226; 9888; 65039]%N.
Proof. reflexivity. Qed.

Example split_keeps_tail :
  split_maxsplit1 (utf8 " a  b c  ") = [utf8 "a"; utf8 "b c  "].
Proof. reflexivity. Qed.

Example split_no_argument : split_maxsplit1 (utf8 "/verify   ") = [utf8 "/verify"].
Proof. reflexivity. Qed.

Example lower_example : lower (utf8 "Bad Request: CHAT") = utf8 "bad request: chat".
Proof. reflexivity. Qed.

(** ** Facts about the string operations *)

Section StringFacts.

Lemma str_eqb_eq (a b : str) : str_eqb a b = true <-> a = b.
Proof.
  revert b. induction a as [|x a IH]; intros [|y b]; simpl; split; intro H;
    try reflexivity; try discriminate.
  - apply andb_true_iff in H. destruct H as [Hxy Hab].
    apply N.eqb_eq in Hxy. apply IH in Hab. congruence.
  - injection H as -> ->. rewrite N.eqb_refl. simpl. apply IH. reflexivity.
Qed.

Lemma str_eqb_neq (a b : str) : a <> b -> str_eqb a b = false.
Proof.
  intro H. destruct (str_eqb a b) eqn:E; [|reflexivity].
  apply str_eqb_eq in E. contradiction.
Qed.

Lemma startswith_app (p s : str) : startswith p (p ++ s) = true.
Proof.
  induction p as [|x p IH]; simpl; [reflexivity|].
  rewrite N.eqb_refl. exact IH.
Qed.

Lemma startswith_mono (n s b : str) :
  startswith n s = true -> startswith n (s ++ b) = true.
Proof.
  revert s. induction n as [|x n IH]; intros [|y s]; simpl; intro H;
    try reflexivity; try discriminate.
  apply andb_true_iff in H. destruct H as [-> H]. simpl. apply IH, H.
Qed.

Lemma contains_app_l (n s b : str) :
  contains n s = true -> contains n (s ++ b) = true.
Proof.
  induction s as [|y s IH]; simpl; intro H.
  - rewrite orb_false_r in H. destruct n; [|discriminate].
    destruct b; reflexivity.
  - apply orb_true_iff in H. apply orb_true_iff. destruct H as [H|H].
    + left. apply (startswith_mono n (y :: s) b H).
    + right. apply IH, H.
Qed.

Lemma contains_app_r (n a s : str) :
  contains n s = true -> contains n (a ++ s) = true.
Proof.
  intro H. induction a as [|y a IH]; simpl; [exact H|].
  rewrite IH. apply orb_true_r.
Qed.

Variable f : char -> bool.

Lemma drop_while_app_all (s r : str) :
  forallb f s = true -> drop_while f (s ++ r) = drop_while f r.
Proof.
  induction s as [|c s IH]; simpl; intro H; [reflexivity|].
  apply andb_true_iff in H. destruct H as [-> H]. apply IH, H.
Qed.

Lemma drop_while_all (s : str) : forallb f s = true -> drop_while f s = [].
Proof.
  intro H. rewrite <- (app_nil_r s). rewrite drop_while_app_all by exact H.
  reflexivity.
Qed.

Lemma take_while_app_all (s r : str) :
  forallb f s = true -> take_while f (s ++ r) = s ++ take_while f r.
Proof.
  induction s as [|c s IH]; simpl; intro H; [reflexivity|].
  apply andb_true_iff in H. destruct H as [-> H]. rewrite IH by exact H.
  reflexivity.
Qed.

Lemma drop_while_idem (s : str) : drop_while f (drop_while f s) = drop_while f s.
Proof.
  induction s as [|c s IH]; simpl; [reflexivity|].
  destruct (f c) eqn:E; [exact IH|]. simpl. rewrite E. reflexivity.
Qed.

Lemma drop_while_exists (s : str) :
  existsb (fun x => negb (f x)) s = true -> drop_while f s <> [].
Proof.
  induction s as [|c s IH]; simpl; intro H; [discriminate|].
  destruct (f c); simpl in H; [apply IH, H | discriminate].
Qed.

End StringFacts.


(** On whitespace, dropping the non-whitespace prefix drops nothing. *)
Lemma drop_nonspace_spaces (s r : str) :
  s <> [] -> forallb isspace s = true ->
  drop_while (fun x => negb (isspace x)) (s ++ r) = s ++ r /\
  take_while (fun x => negb (isspace x)) (s ++ r) = [].
Proof.
  destruct s as [|c s]; [congruence|]. simpl. intros _ H.
  apply andb_true_iff in H. destruct H as [-> _]. simpl. split; reflexivity.
Qed.

Lemma lstrip_idem (s : str) : lstrip (lstrip s) = lstrip s.
Proof. apply drop_while_idem. Qed.

Lemma strip_lstrip (s : str) : strip (lstrip s) = strip s.
Proof. unfold strip. rewrite lstrip_idem. reflexivity. Qed.

(** No argument behind the keyword: [split] returns at most the keyword. *)
Lemma split_no_arg (kw trail : str) :
  forallb (fun x => negb (isspace x)) kw = true ->
  forallb isspace trail = true ->
  List.length (split_maxsplit1 (kw ++ trail)) < 2.
Proof.
  intros Hkw Htr. unfold split_maxsplit1, lstrip.
  destruct kw as [|c w].
  - simpl. rewrite drop_while_all by exact Htr. simpl. lia.
  - simpl in Hkw. apply andb_true_iff in Hkw. destruct Hkw as [Hc Hw].
    simpl. apply negb_true_iff in Hc. rewrite Hc.
    rewrite drop_while_app_all by exact Hw.
    assert (E : drop_while isspace (drop_while (fun x => negb (isspace x)) trail) = []).
    { destruct trail as [|d tr]; [reflexivity|].
      simpl in Htr. apply andb_true_iff in Htr. destruct Htr as [Hd Htr'].
      simpl. rewrite Hd. simpl. rewrite Hd. apply drop_while_all, Htr'. }
    rewrite E. simpl. lia.
Qed.

(** A keyword, whitespace, and a remainder that is not all whitespace:
    [split] returns the keyword and the whole remainder from its first
    non-whitespace code point on. *)
Lemma split_with_arg (kw sep arg : str) :
  kw <> [] -> forallb (fun x => negb (isspace x)) kw = true ->
  sep <> [] -> forallb isspace sep = true ->
  existsb (fun x => negb (isspace x)) arg = true ->
  split_maxsplit1 (kw ++ sep ++ arg) = [kw; lstrip arg].
Proof.
  intros Hne Hkw Hsne Hsep Harg. unfold split_maxsplit1.
  destruct kw as [|c w]; [congruence|].
  simpl in Hkw. apply andb_true_iff in Hkw. destruct Hkw as [Hc Hw].
  unfold lstrip at 1. simpl. apply negb_true_iff in Hc. rewrite Hc.
  rewrite drop_while_app_all by exact Hw.
  rewrite take_while_app_all by exact Hw.
  destruct (drop_nonspace_spaces sep arg Hsne Hsep) as [-> ->].
  unfold lstrip. rewrite drop_while_app_all by exact Hsep.
  rewrite app_nil_r.
  pose proof (drop_while_exists isspace arg Harg) as Hn.
  destruct (drop_while isspace arg); [congruence | reflexivity].
Qed.

(** ** Start-up *)

(** When [main] gets as far as polling, the [bot] global is assigned; the
    handlers run only from there on. *)
Lemma main_init_assigns_bot (s s' : State) :
  main_init s = (Returned tt, s') -> exists b, bot (proc s') = Some b.
Proof.
  unfold main_init.
  destruct (env_lookup (utf8 "BOT_TOKEN") (environ (proc s))) as [[|c tok]|];
    intro H; inversion H; subst; simpl; eauto.
Qed.

(** ** /verify: one run, in full *)

Lemma attribute_error_is_other (attr : str) :
  attr = utf8 "get_chat" -> is_not_found (AttributeError attr) = false.
Proof. intros ->. reflexivity. Qed.

Section VerifyRun.

Variable tp : Transport.
Variable telegram : str -> exn + Chat.
Variable p : Process.
Variable c : N.

(** Without an argument: the usage text is sent, and the handler ends as
    that send does. *)
Lemma run_verify_usage (t : str) :
  List.length (split_maxsplit1 t) < 2 ->
  run (cmd_verify tp telegram (text_message c t)) p =
  (outcome_of (send_verdict tp c usage_text None),
   {| proc := p; trace := [Answer c usage_text None] |}).
Proof.
  intro H. apply Nat.ltb_lt in H.
  unfold run, cmd_verify, text_message, text_of.
  cbn - [split_maxsplit1 Nat.ltb usage_text].
  unfold hbind, hret. cbn - [split_maxsplit1 Nat.ltb usage_text].
  rewrite H. reflexivity.
Qed.

(** The requests of the [except] clause for an exception, and how it ends:
    as its one send does. *)
Let except_clause (username : str) (e : exn) : list event * Outcome unit :=
  if is_not_found e then
    ([Answer c (cannot_verify_text username) None],
     outcome_of (send_verdict tp c (cannot_verify_text username) None))
  else
    ([LogError (error_log_record username e);
      Answer c (error_checking_text username) None],
     outcome_of (send_verdict tp c (error_checking_text username) None)).

(** The requests of the [try] statement, and how it ends.  A report that the
    platform refuses is handled by the [except] clause like a failed
    lookup. *)
Let try_statement (username : str) : list event * Outcome unit :=
  match bot p with
  | None => except_clause username (AttributeError (utf8 "get_chat"))
  | Some _ =>
      let rest :=
        match telegram (utf8 "@" ++ username) with
        | inl e => except_clause username e
        | inr chat =>
            let report := Answer c (build_response username chat) None in
            match send_verdict tp c (build_response username chat) None with
            | None => ([report], Returned tt)
            | Some e =>
                (report :: fst (except_clause username e),
                 snd (except_clause username e))
            end
        end in
      (GetChat (utf8 "@" ++ username) :: fst rest, snd rest)
  end.

(** With an argument: the acknowledgement is sent; if it is refused the
    handler raises there and then, and otherwise the [try] statement runs. *)
Lemma run_verify_argument (t kw arg : str) :
  split_maxsplit1 t = [kw; arg] ->
  let username := normalize_username arg in
  let ack := Answer c (checking_text username) None in
  run (cmd_verify tp telegram (text_message c t)) p =
  match send_verdict tp c (checking_text username) None with
  | Some e => (Raised e, {| proc := p; trace := [ack] |})
  | None =>
      (snd (try_statement username),
       {| proc := p; trace := ack :: fst (try_statement username) |})
  end.
Proof.
  intros Hsplit username ack. subst ack.
  unfold try_statement, except_clause.
  unfold run, cmd_verify, text_message, text_of.
  cbn [msg_text msg_chat bind ret catch Monad_Handler Exc_Handler].
  unfold hbind at 1, hret at 1. rewrite Hsplit.
  cbn [List.length Nat.ltb Nat.leb nth]. fold username.
  unfold hbind, htry, message_answer, logger_error, emit, bot_get_chat.
  cbn [proc trace app msg_chat].
  destruct (send_verdict tp c (checking_text username) None) as [e0|];
    [reflexivity|].
  cbn [outcome_of proc trace app].
  destruct (bot p) as [b|].
  - destruct (telegram (utf8 "@" ++ username)) as [e|chat].
    + destruct (is_not_found e); cbn [proc trace app fst snd];
        match goal with
        | |- context [outcome_of ?v] => destruct v; reflexivity
        end.
    + cbn [proc trace app].
      destruct (send_verdict tp c (build_response username chat) None) as [e1|];
        cbn [outcome_of proc trace app fst snd]; [|reflexivity].
      destruct (is_not_found e1); cbn [proc trace app fst snd];
        match goal with
        | |- context [outcome_of ?v] => destruct v; reflexivity
        end.
  - rewrite (attribute_error_is_other _ eq_refl). cbn [proc trace app fst snd].
    match goal with
    | |- context [outcome_of ?v] => destruct v; reflexivity
    end.
Qed.

End VerifyRun.

(** Rewrites a run with an argument into its requests and splits it along
    what the platform and the process decide. *)
Ltac verify_run Hsplit :=
  rewrite (run_verify_argument _ _ _ _ _ _ _ Hsplit); cbv zeta.

Ltac verify_cases :=
  repeat (rewrite ?(attribute_error_is_other _ eq_refl);
          match goal with
          | |- context [match ?x with _ => _ end] => destruct x eqn:?
          end;
          cbv zeta; cbn [fst snd proc trace outcome_of]).

(** ** /verify: the contracts *)

(** C3: a /verify message with nothing but whitespace behind the command
    keyword gets exactly one reply, the usage text, and no lookup is made. *)
Theorem verify_missing_argument
    (tp : Transport) (telegram : str -> exn + Chat) (p : Process) (c : N)
    (kw trail : str) :
  forallb (fun x => negb (isspace x)) kw = true ->
  forallb isspace trail = true ->
  let r := run (cmd_verify tp telegram (text_message c (kw ++ trail))) p in
  r = (outcome_of (send_verdict tp c usage_text None),
       {| proc := p; trace := [Answer c usage_text None] |}) /\
  replies (trace (snd r)) = [usage_text] /\
  lookups (trace (snd r)) = [].
Proof.
  intros Hkw Htr r. subst r.
  rewrite (run_verify_usage tp telegram p c _ (split_no_arg kw trail Hkw Htr)).
  repeat split.
Qed.

Lemma verify_missing_argument_witness :
  forallb (fun x => negb (isspace x)) (utf8 "/verify") = true /\
  forallb isspace (utf8 "  ") = true /\
  let r := run (cmd_verify reliable sample_telegram
                  (text_message 7 (utf8 "/verify" ++ utf8 "  "))) sample_process in
  r = (Returned tt,
       {| proc := sample_process; trace := [Answer 7 usage_text None] |}) /\
  replies (trace (snd r)) = [usage_text] /\
  lookups (trace (snd r)) = [].
Proof.
  split; [reflexivity|]. split; [reflexivity|].
  exact (verify_missing_argument reliable sample_telegram sample_process 7
           (utf8 "/verify") (utf8 "  ") eq_refl eq_refl).
Defined.

(** C4: an argument that begins with [@] loses exactly that one [@] before
    the lookup is made (for the identifier ["@" + username]); an argument
    that does not begin with [@] is used as it is.  The lookup follows the
    acknowledgement, so it is made when the platform accepts that. *)
Theorem verify_strips_one_at
    (tp : Transport) (telegram : str -> exn + Chat) (p : Process) (b : Bot)
    (c : N) (t kw arg : str) :
  bot p = Some b ->
  split_maxsplit1 t = [kw; arg] ->
  send_verdict tp c (checking_text (normalize_username arg)) None = None ->
  let r := run (cmd_verify tp telegram (text_message c t)) p in
  (forall name, strip arg = utf8 "@" ++ name ->
     normalize_username arg = name /\
     hd_error (replies (trace (snd r))) = Some (checking_text name) /\
     lookups (trace (snd r)) = [utf8 "@" ++ name]) /\
  (startswith (utf8 "@") (strip arg) = false ->
     normalize_username arg = strip arg /\
     hd_error (replies (trace (snd r))) = Some (checking_text (strip arg)) /\
     lookups (trace (snd r)) = [utf8 "@" ++ strip arg]) /\
  normalize_username (utf8 "@@name") = utf8 "@name" /\
  normalize_username (utf8 "@name") = utf8 "name".
Proof.
  intros Hbot Hsplit Hack r. subst r.
  assert (L : hd_error (replies (trace (snd (run (cmd_verify tp telegram
                                                   (text_message c t)) p)))) =
              Some (checking_text (normalize_username arg)) /\
              lookups (trace (snd (run (cmd_verify tp telegram
                                          (text_message c t)) p))) =
              [utf8 "@" ++ normalize_username arg]).
  { verify_run Hsplit. rewrite Hack, Hbot. verify_cases; split; reflexivity. }
  destruct L as [L1 L2].
  split; [|split; [|split; reflexivity]].
  - intros name Hname.
    assert (E : normalize_username arg = name).
    { unfold normalize_username. rewrite Hname.
      rewrite startswith_app. reflexivity. }
    rewrite <- E. repeat split; assumption.
  - intros Hno.
    assert (E : normalize_username arg = strip arg).
    { unfold normalize_username. rewrite Hno. reflexivity. }
    rewrite <- E. repeat split; assumption.
Qed.

Lemma verify_strips_one_at_witness :
  bot sample_process = Some sample_bot /\
  split_maxsplit1 (utf8 "/verify @@name") = [utf8 "/verify"; utf8 "@@name"] /\
  send_verdict reliable 7 (checking_text (normalize_username (utf8 "@@name"))) None =
    None /\
  strip (utf8 "@@name") = utf8 "@" ++ utf8 "@name" /\
  startswith (utf8 "@") (strip (utf8 "name")) = false /\
  normalize_username (utf8 "@@name") = utf8 "@name" /\
  lookups (trace (snd (run (cmd_verify reliable sample_telegram
                              (text_message 7 (utf8 "/verify @@name")))
                         sample_process))) = [utf8 "@" ++ utf8 "@name"] /\
  lookups (trace (snd (run (cmd_verify reliable sample_telegram
                              (text_message 7 (utf8 "/verify name")))
                         sample_process))) = [utf8 "@" ++ strip (utf8 "name")].
Proof.
  split; [reflexivity|]. split; [reflexivity|]. split; [reflexivity|].
  split; [reflexivity|]. split; [reflexivity|].
  pose proof (verify_strips_one_at reliable sample_telegram sample_process
                sample_bot 7 (utf8 "/verify @@name") (utf8 "/verify")
                (utf8 "@@name") eq_refl eq_refl eq_refl) as H1.
  pose proof (verify_strips_one_at reliable sample_telegram sample_process
                sample_bot 7 (utf8 "/verify name") (utf8 "/verify")
                (utf8 "name") eq_refl eq_refl eq_refl) as H2.
  destruct H1 as [H1 _]. destruct H2 as [_ [H2 _]].
  destruct (H1 (utf8 "@name") eq_refl) as [E1 [_ L1]].
  destruct (H2 eq_refl) as [_ [_ L2]].
  split; [exact E1|]. split; [exact L1 | exact L2].
Defined.

(** C1: when the lookup fails, the lower-cased text of the exception decides
    the reply.  If it contains "chat not found" or "bad request", the reply
    is the "Cannot verify" text, which names the three possible causes;
    otherwise a log record with the username and the exception text is
    written and the reply is the "Error checking" text.  The lookup is
    reached when the platform accepts the acknowledgement. *)
Theorem verify_failure_classification
    (tp : Transport) (telegram : str -> exn + Chat) (p : Process) (b : Bot)
    (c : N) (t kw arg : str) (e : exn) :
  bot p = Some b ->
  split_maxsplit1 t = [kw; arg] ->
  send_verdict tp c (checking_text (normalize_username arg)) None = None ->
  telegram (utf8 "@" ++ normalize_username arg) = inl e ->
  let username := normalize_username arg in
  let error_msg := lower (exn_str e) in
  let tr := trace (snd (run (cmd_verify tp telegram (text_message c t)) p)) in
  (contains (utf8 "chat not found") error_msg = true \/
   contains (utf8 "bad request") error_msg = true ->
     tr = [Answer c (checking_text username) None;
           GetChat (utf8 "@" ++ username);
           Answer c (cannot_verify_text username) None]) /\
  (contains (utf8 "chat not found") error_msg = false ->
   contains (utf8 "bad request") error_msg = false ->
     tr = [Answer c (checking_text username) None;
           GetChat (utf8 "@" ++ username);
           LogError (utf8 "Error verifying " ++ username ++ utf8 ": " ++ exn_str e);
           Answer c (error_checking_text username) None]) /\
  contains (utf8 "Username doesn't exist") (cannot_verify_text username) = true /\
  contains (utf8 "Channel/bot is private") (cannot_verify_text username) = true /\
  contains (utf8 "Username is misspelled") (cannot_verify_text username) = true.
Proof.
  intros Hbot Hsplit Hack Hfail username error_msg tr. subst tr username.
  verify_run Hsplit. rewrite Hack, Hbot, Hfail. cbn [fst snd trace].
  unfold is_not_found. fold error_msg.
  split; [|split].
  - intros [H|H]; rewrite H; [|rewrite orb_true_r]; reflexivity.
  - intros H1 H2. rewrite H1, H2. reflexivity.
  - unfold cannot_verify_text.
    repeat split; apply contains_app_r, contains_app_r; reflexivity.
Qed.

Lemma verify_failure_classification_witness :
  bot sample_process = Some sample_bot /\
  split_maxsplit1 (utf8 "/verify @doesnotexist123") =
    [utf8 "/verify"; utf8 "@doesnotexist123"] /\
  send_verdict reliable 7
    (checking_text (normalize_username (utf8 "@doesnotexist123"))) None = None /\
  sample_telegram (utf8 "@" ++ normalize_username (utf8 "@doesnotexist123")) =
    inl chat_not_found /\
  contains (utf8 "chat not found") (lower (exn_str chat_not_found)) = true /\
  trace (snd (run (cmd_verify reliable sample_telegram
                     (text_message 7 (utf8 "/verify @doesnotexist123")))
                sample_process)) =
    [Answer 7 (checking_text (utf8 "doesnotexist123")) None;
     GetChat (utf8 "@doesnotexist123");
     Answer 7 (cannot_verify_text (utf8 "doesnotexist123")) None].
Proof.
  split; [reflexivity|]. split; [reflexivity|]. split; [reflexivity|].
  split; [reflexivity|]. split; [reflexivity|].
  destruct (verify_failure_classification reliable sample_telegram sample_process
              sample_bot 7 (utf8 "/verify @doesnotexist123") (utf8 "/verify")
              (utf8 "@doesnotexist123") chat_not_found eq_refl eq_refl eq_refl
              eq_refl)
    as [H _].
  exact (H (or_introl eq_refl)).
Defined.

(** The other branch on a run: a timeout is logged and answered with the
    "Error checking" text. *)
Example verify_timeout_run :
  trace (snd (run (cmd_verify reliable sample_telegram
                     (text_message 7 (utf8 "/verify slow")))
                sample_process)) =
    [Answer 7 (utf8 "🔍 Checking @slow...") None;
     GetChat (utf8 "@slow");
     LogError (utf8 "Error verifying slow: HTTP Client says - Request timeout error");
     Answer 7 (error_checking_text (utf8 "slow")) None].
Proof. reflexivity. Qed.

(** C5, as stated, fails when the platform refuses a send.  A report that
    is refused (here for the "<3" in the chat's title) is caught by the
    [except] clause: after a successful lookup three answers are made, the
    third one the "Cannot verify" text.  And an acknowledgement that is
    refused ends the handler with that exception before any lookup. *)
Lemma verify_refused_sends :
  bot sample_process = Some sample_bot /\
  split_maxsplit1 (utf8 "/verify @heart") = [utf8 "/verify"; utf8 "@heart"] /\
  heart_telegram (utf8 "@heart") = inr heart /\
  run (cmd_verify html_strict heart_telegram (text_message 7 (utf8 "/verify @heart")))
      sample_process =
    (Returned tt,
     {| proc := sample_process;
        trace := [Answer 7 (checking_text (utf8 "heart")) None;
                  GetChat (utf8 "@heart");
                  Answer 7 (build_response (utf8 "heart") heart) None;
                  Answer 7 (cannot_verify_text (utf8 "heart")) None] |}) /\
  List.length
    (replies (trace (snd (run (cmd_verify html_strict heart_telegram
                                 (text_message 7 (utf8 "/verify @heart")))
                            sample_process)))) <> 2 /\
  split_maxsplit1 (utf8 "/verify <3") = [utf8 "/verify"; utf8 "<3"] /\
  run (cmd_verify html_strict heart_telegram (text_message 7 (utf8 "/verify <3")))
      sample_process =
    (Raised cannot_parse,
     {| proc := sample_process;
        trace := [Answer 7 (checking_text (utf8 "<3")) None] |}) /\
  lookups (trace (snd (run (cmd_verify html_strict heart_telegram
                              (text_message 7 (utf8 "/verify <3")))
                         sample_process))) = [].
Proof.
  repeat split; try reflexivity.
  vm_compute. discriminate.
Qed.

(** C5, amended: when the platform accepts the replies to the chat, a
    /verify run that reaches the lookup returns normally, sends two replies
    (the acknowledgement, then the report if the lookup succeeds and one of
    the two error texts if it fails), makes one lookup, and leaves the
    process state as it found it. *)
Theorem verify_side_effects
    (tp : Transport) (telegram : str -> exn + Chat) (p : Process) (b : Bot)
    (c : N) (t kw arg : str) :
  bot p = Some b ->
  split_maxsplit1 t = [kw; arg] ->
  (forall text, send_verdict tp c text None = None) ->
  let username := normalize_username arg in
  let r := run (cmd_verify tp telegram (text_message c t)) p in
  fst r = Returned tt /\
  proc (snd r) = p /\
  lookups (trace (snd r)) = [utf8 "@" ++ username] /\
  List.length (replies (trace (snd r))) = 2 /\
  (forall chat, telegram (utf8 "@" ++ username) = inr chat ->
     replies (trace (snd r)) =
       [checking_text username; build_response username chat]) /\
  (forall e, telegram (utf8 "@" ++ username) = inl e ->
     replies (trace (snd r)) =
       [checking_text username;
        if is_not_found e then cannot_verify_text username
        else error_checking_text username]).
Proof.
  intros Hbot Hsplit Hacc username r. subst r username.
  verify_run Hsplit. rewrite !Hacc, Hbot. cbn [outcome_of].
  destruct (telegram (utf8 "@" ++ normalize_username arg)) as [e|chat].
  - destruct (is_not_found e) eqn:E; cbn [fst snd proc trace];
      (split; [reflexivity|]); (split; [reflexivity|]);
      (split; [reflexivity|]); (split; [reflexivity|]);
      (split; [intros x Hx; discriminate Hx|]);
      intros x Hx; injection Hx as <-; rewrite E; reflexivity.
  - rewrite Hacc. cbn [fst snd proc trace].
    split; [reflexivity|]. split; [reflexivity|].
    split; [reflexivity|]. split; [reflexivity|].
    split; [|intros x Hx; discriminate Hx].
    intros x Hx. injection Hx as <-. reflexivity.
Qed.

Lemma verify_side_effects_witness :
  bot sample_process = Some sample_bot /\
  split_maxsplit1 (utf8 "/verify @dexscreener") =
    [utf8 "/verify"; utf8 "@dexscreener"] /\
  (forall text, send_verdict reliable 7 text None = None) /\
  let r := run (cmd_verify reliable sample_telegram
                  (text_message 7 (utf8 "/verify @dexscreener"))) sample_process in
  fst r = Returned tt /\
  proc (snd r) = sample_process /\
  lookups (trace (snd r)) = [utf8 "@dexscreener"] /\
  replies (trace (snd r)) =
    [checking_text (utf8 "dexscreener");
     build_response (utf8 "dexscreener") dexscreener].
Proof.
  split; [reflexivity|]. split; [reflexivity|].
  split; [intro text; reflexivity|].
  destruct (verify_side_effects reliable sample_telegram sample_process sample_bot
              7 (utf8 "/verify @dexscreener") (utf8 "/verify")
              (utf8 "@dexscreener") eq_refl eq_refl (fun _ => eq_refl))
    as [H1 [H2 [H3 [_ [H5 _]]]]].
  split; [exact H1|]. split; [exact H2|]. split; [exact H3|].
  exact (H5 dexscreener eq_refl).
Defined.

(** The heads of the replies, by which they are told apart. *)
Lemma build_response_head (username : str) (chat : Chat) :
  hd_error (build_response username chat) = Some 10%N.
Proof.
  unfold build_response.
  destruct (description chat) as [d|]; [destruct (truthy d)|]; reflexivity.
Qed.

Lemma usage_is_no_report (username : str) (chat : Chat) :
  usage_text <> build_response username chat.
Proof.
  intro H. apply (f_equal (@hd_error char)) in H.
  rewrite build_response_head in H. discriminate H.
Qed.

Lemma usage_is_no_other_reply (username : str) :
  usage_text <> checking_text username /\
  usage_text <> cannot_verify_text username /\
  usage_text <> error_checking_text username.
Proof.
  repeat split; intro H; vm_compute in H; discriminate H.
Qed.

(** With an argument, the usage text is not among the answers, whatever the
    platform decides. *)
Lemma no_usage_with_argument
    (tp : Transport) (telegram : str -> exn + Chat) (p : Process) (c : N)
    (t kw arg : str) :
  split_maxsplit1 t = [kw; arg] ->
  ~ In usage_text
      (replies (trace (snd (run (cmd_verify tp telegram (text_message c t)) p)))).
Proof.
  intro Hsplit. verify_run Hsplit.
  destruct (usage_is_no_other_reply (normalize_username arg)) as [U1 [U2 U3]].
  pose proof (usage_is_no_report (normalize_username arg)) as U4.
  verify_cases; cbn [replies flat_map app In]; intro K;
    repeat match type of K with
           | _ \/ _ => destruct K as [K|K]
           | False => destruct K
           end;
    symmetry in K; try contradiction; exact (U4 _ K).
Qed.

(** C9: "/verify @" has an argument, so no usage text is sent; the lone [@]
    is stripped, which leaves the empty username; the acknowledgement reads
    "Checking @..." and, once the platform has accepted it, the lookup is
    made for the identifier "@". *)
Theorem verify_lone_at
    (tp : Transport) (telegram : str -> exn + Chat) (p : Process) (b : Bot)
    (c : N) :
  bot p = Some b ->
  send_verdict tp c (utf8 "🔍 Checking @...") None = None ->
  let r := run (cmd_verify tp telegram (text_message c (utf8 "/verify @"))) p in
  split_maxsplit1 (utf8 "/verify @") = [utf8 "/verify"; utf8 "@"] /\
  normalize_username (utf8 "@") = [] /\
  (exists tail,
     trace (snd r) =
       Answer c (utf8 "🔍 Checking @...") None :: GetChat (utf8 "@") :: tail) /\
  lookups (trace (snd r)) = [utf8 "@"] /\
  ~ In usage_text (replies (trace (snd r))).
Proof.
  intros Hbot Hack r. subst r.
  split; [reflexivity|]. split; [reflexivity|].
  split; [|split].
  - rewrite (run_verify_argument tp telegram p c (utf8 "/verify @")
               (utf8 "/verify") (utf8 "@") eq_refl).
    change (normalize_username (utf8 "@")) with (@nil char).
    cbv zeta. change (checking_text []) with (utf8 "🔍 Checking @...").
    rewrite Hack, Hbot. verify_cases; eexists; reflexivity.
  - rewrite (run_verify_argument tp telegram p c (utf8 "/verify @")
               (utf8 "/verify") (utf8 "@") eq_refl).
    change (normalize_username (utf8 "@")) with (@nil char).
    cbv zeta. change (checking_text []) with (utf8 "🔍 Checking @...").
    rewrite Hack, Hbot. verify_cases; reflexivity.
  - exact (no_usage_with_argument tp telegram p c (utf8 "/verify @")
             (utf8 "/verify") (utf8 "@") eq_refl).
Qed.

Lemma verify_lone_at_witness :
  bot sample_process = Some sample_bot /\
  send_verdict reliable 7 (utf8 "🔍 Checking @...") None = None /\
  let r := run (cmd_verify reliable sample_telegram (text_message 7 (utf8 "/verify @")))
             sample_process in
  (exists tail,
     trace (snd r) =
       Answer 7 (utf8 "🔍 Checking @...") None :: GetChat (utf8 "@") :: tail) /\
  lookups (trace (snd r)) = [utf8 "@"] /\
  ~ In usage_text (replies (trace (snd r))).
Proof.
  split; [reflexivity|]. split; [reflexivity|].
  destruct (verify_lone_at reliable sample_telegram sample_process sample_bot 7
              eq_refl eq_refl)
    as [_ [_ H]].
  exact H.
Defined.

(** C10: whatever follows the command keyword and its whitespace is the
    argument, inner whitespace and all: the username is that remainder with
    the whitespace at both ends stripped and then one leading [@] removed if
    there is one, and the lookup that follows the accepted acknowledgement
    is made for ["@" + username]. *)
Theorem verify_argument_is_whole_remainder
    (tp : Transport) (telegram : str -> exn + Chat) (p : Process) (b : Bot)
    (c : N) (kw sep arg : str) :
  bot p = Some b ->
  kw <> [] -> forallb (fun x => negb (isspace x)) kw = true ->
  sep <> [] -> forallb isspace sep = true ->
  existsb (fun x => negb (isspace x)) arg = true ->
  send_verdict tp c (checking_text (normalize_username arg)) None = None ->
  let r := run (cmd_verify tp telegram (text_message c (kw ++ sep ++ arg))) p in
  let trimmed := strip arg in
  let username :=
    if startswith (utf8 "@") trimmed then skipn 1 trimmed else trimmed in
  lookups (trace (snd r)) = [utf8 "@" ++ username] /\
  exists tail,
    trace (snd r) =
      Answer c (checking_text username) None ::
      GetChat (utf8 "@" ++ username) :: tail.
Proof.
  intros Hbot Hkw1 Hkw2 Hsep1 Hsep2 Harg Hack r trimmed username.
  subst r.
  assert (E : normalize_username (lstrip arg) = username).
  { unfold normalize_username. rewrite strip_lstrip. reflexivity. }
  assert (E' : normalize_username arg = username) by reflexivity.
  rewrite E' in Hack.
  rewrite (run_verify_argument tp telegram p c _ kw (lstrip arg)
             (split_with_arg kw sep arg Hkw1 Hkw2 Hsep1 Hsep2 Harg)).
  cbv zeta. rewrite E, Hack, Hbot.
  split; [verify_cases; reflexivity | verify_cases; eexists; reflexivity].
Qed.

Lemma verify_argument_is_whole_remainder_witness :
  bot sample_process = Some sample_bot /\
  utf8 "/verify" <> [] /\
  forallb (fun x => negb (isspace x)) (utf8 "/verify") = true /\
  utf8 " " <> [] /\ forallb isspace (utf8 " ") = true /\
  existsb (fun x => negb (isspace x)) (utf8 "@foo bar baz ") = true /\
  send_verdict reliable 7
    (checking_text (normalize_username (utf8 "@foo bar baz "))) None = None /\
  lookups (trace (snd (run (cmd_verify reliable sample_telegram
                              (text_message 7
                                 (utf8 "/verify" ++ utf8 " " ++ utf8 "@foo bar baz ")))
                         sample_process))) = [utf8 "@foo bar baz"].
Proof.
  split; [reflexivity|]. split; [discriminate|]. split; [reflexivity|].
  split; [discriminate|]. split; [reflexivity|]. split; [reflexivity|].
  split; [reflexivity|].
  destruct (verify_argument_is_whole_remainder reliable sample_telegram
              sample_process sample_bot 7 (utf8 "/verify") (utf8 " ")
              (utf8 "@foo bar baz ")
              eq_refl ltac:(discriminate) eq_refl ltac:(discriminate)
              eq_refl eq_refl eq_refl) as [H _].
  exact H.
Defined.

(** The same on an argument of three words. *)
Example verify_three_words_run :
  trace (snd (run (cmd_verify reliable sample_telegram
                     (text_message 7 (utf8 "/verify @foo bar baz")))
                sample_process)) =
    [Answer 7 (utf8 "🔍 Checking @foo bar baz...") None;
     GetChat (utf8 "@foo bar baz");
     Answer 7 (cannot_verify_text (utf8 "foo bar baz")) None].
Proof. reflexivity. Qed.

(** C2, as stated, fails on a description that is present but empty: its
    length is at most 100, yet no description line is rendered for it. *)
Lemma empty_description_not_rendered :
  description untitled = Some [] /\
  List.length (@nil char) <= 100 /\
  replies (trace (snd (run (cmd_verify reliable sample_telegram
                              (text_message 7 (utf8 "/verify @untitled")))
                         sample_process))) <>
    [checking_text (utf8 "untitled");
     response_head (utf8 "untitled") untitled ++ bio_line [] ++ response_foot] /\
  replies (trace (snd (run (cmd_verify reliable sample_telegram
                              (text_message 7 (utf8 "/verify @untitled")))
                         sample_process))) =
    [checking_text (utf8 "untitled");
     response_head (utf8 "untitled") untitled ++ response_foot].
Proof.
  split; [reflexivity|]. split; [simpl; lia|]. split; [|reflexivity].
  intro H. vm_compute in H. discriminate H.
Qed.

(** C2, amended: on a successful lookup the report is the head, the
    description line, and the foot.  A description of more than 100 code
    points is rendered as its first 100 followed by "..."; one of 1 to 100
    code points is rendered as it is; for an absent or empty description the
    line is left out.  The report is the second and last reply when the
    platform accepts the acknowledgement and the report. *)
Theorem verify_description_rendering
    (tp : Transport) (telegram : str -> exn + Chat) (p : Process) (b : Bot)
    (c : N) (t kw arg : str) (chat : Chat) :
  bot p = Some b ->
  split_maxsplit1 t = [kw; arg] ->
  send_verdict tp c (checking_text (normalize_username arg)) None = None ->
  send_verdict tp c (build_response (normalize_username arg) chat) None = None ->
  telegram (utf8 "@" ++ normalize_username arg) = inr chat ->
  let username := normalize_username arg in
  let head := response_head username chat in
  exists report,
    replies (trace (snd (run (cmd_verify tp telegram (text_message c t)) p))) =
      [checking_text username; report] /\
    (forall d, description chat = Some d -> 100 < List.length d ->
       report = head ++ bio_line (firstn 100 d ++ utf8 "...") ++ response_foot /\
       List.length (firstn 100 d) = 100) /\
    (forall d, description chat = Some d ->
       1 <= List.length d -> List.length d <= 100 ->
       report = head ++ bio_line d ++ response_foot) /\
    (description chat = None \/ description chat = Some [] ->
       report = head ++ response_foot).
Proof.
  intros Hbot Hsplit Hack Hrep Hok username head. subst username head.
  verify_run Hsplit. rewrite Hack, Hbot, Hok, Hrep. cbn [fst snd trace].
  exists (build_response (normalize_username arg) chat).
  split; [reflexivity|].
  unfold build_response, truncate_description.
  split; [|split].
  - intros d Hd Hlen. rewrite Hd.
    destruct d as [|x d]; [simpl in Hlen; lia|]. cbn [truthy].
    apply Nat.ltb_lt in Hlen. rewrite Hlen. rewrite <- app_assoc.
    split; [reflexivity|]. apply firstn_length_le.
    apply Nat.ltb_lt in Hlen. lia.
  - intros d Hd Hlo Hhi. rewrite Hd.
    destruct d as [|x d]; [simpl in Hlo; lia|]. cbn [truthy].
    assert (E : (100 <? List.length (x :: d)) = false)
      by (apply Nat.ltb_ge; exact Hhi).
    rewrite E. rewrite <- app_assoc. reflexivity.
  - intros [Hd|Hd]; rewrite Hd; reflexivity.
Qed.

Lemma verify_description_rendering_witness :
  bot sample_process = Some sample_bot /\
  split_maxsplit1 (utf8 "/verify @dexscreener") =
    [utf8 "/verify"; utf8 "@dexscreener"] /\
  send_verdict reliable 7
    (checking_text (normalize_username (utf8 "@dexscreener"))) None = None /\
  send_verdict reliable 7
    (build_response (normalize_username (utf8 "@dexscreener")) dexscreener) None =
    None /\
  sample_telegram (utf8 "@" ++ normalize_username (utf8 "@dexscreener")) =
    inr dexscreener /\
  description dexscreener = Some (repeat 100%N 120) /\
  100 < List.length (repeat 100%N 120) /\
  replies (trace (snd (run (cmd_verify reliable sample_telegram
                              (text_message 7 (utf8 "/verify @dexscreener")))
                         sample_process))) =
    [checking_text (utf8 "dexscreener");
     response_head (utf8 "dexscreener") dexscreener ++
     bio_line (repeat 100%N 100 ++ utf8 "...") ++ response_foot].
Proof.
  split; [reflexivity|]. split; [reflexivity|]. split; [reflexivity|].
  split; [reflexivity|]. split; [reflexivity|].
  split; [reflexivity|]. split; [simpl; lia|].
  destruct (verify_description_rendering reliable sample_telegram sample_process
              sample_bot 7 (utf8 "/verify @dexscreener") (utf8 "/verify")
              (utf8 "@dexscreener") dexscreener eq_refl eq_refl eq_refl eq_refl
              eq_refl)
    as [report [Hr [Hlong _]]].
  rewrite Hr.
  destruct (Hlong (repeat 100%N 120) eq_refl ltac:(simpl; lia)) as [-> _].
  reflexivity.
Defined.

(** The spec's end-to-end run: a public channel with a description of 120
    characters. *)
Example verify_dexscreener_run :
  replies (trace (snd (run (cmd_verify reliable sample_telegram
                              (text_message 7 (utf8 "/verify @dexscreener")))
                         sample_process))) =
    [utf8 "🔍 Checking @dexscreener...";
     nl ++ utf8 "📊 <b>Verification Report: @dexscreener</b>" ++ nl ++
     nl ++
     utf8 "✅ Active" ++ nl ++
     utf8 "📌 Type: Channel" ++ nl ++
     utf8 "👥 Title: DexScreener" ++ nl ++
     utf8 "📝 Bio: <i>" ++ repeat 100%N 100 ++ utf8 "...</i>" ++ nl ++
     response_foot].
Proof. reflexivity. Qed.

(** ** The static handlers *)

(** With no [MINI_APP_URL] in the environment the default address is used
    and /start sends its menu. *)
Example start_default_run :
  trace (snd (run (cmd_start reliable (text_message 7 (utf8 "/start")))
                sample_process)) =
    [Answer 7 welcome_text (Some (start_keyboard default_mini_app_url))].
Proof. reflexivity. Qed.

(** C6, on the code: with [MINI_APP_URL] set to the empty string, /start
    sends the configuration error, but /upload and /report send their usual
    menu, with a button that opens the empty address.  Each handler ends as
    its one send does. *)
Theorem static_handlers_on_empty_url (tp : Transport) (message : Message) :
  run (cmd_start tp message) empty_url_process =
    (outcome_of (send_verdict tp (msg_chat message) config_error_text None),
     {| proc := empty_url_process;
        trace := [Answer (msg_chat message) config_error_text None] |}) /\
  run (cmd_upload tp message) empty_url_process =
    (outcome_of
       (send_verdict tp (msg_chat message) upload_text
          (Some [[web_app_button (utf8 "📊 Open Trade Analyzer") []]])),
     {| proc := empty_url_process;
        trace := [Answer (msg_chat message) upload_text
                    (Some [[web_app_button (utf8 "📊 Open Trade Analyzer") []]])] |}) /\
  run (cmd_report tp message) empty_url_process =
    (outcome_of
       (send_verdict tp (msg_chat message) report_text
          (Some [[web_app_button (utf8 "📊 Open Report") []]])),
     {| proc := empty_url_process;
        trace := [Answer (msg_chat message) report_text
                    (Some [[web_app_button (utf8 "📊 Open Report") []]])] |}).
Proof. repeat split. Qed.

(** ** Help *)

(** C7, as stated, fails: the reply to the "verify_help" button is not the
    reply to /help. *)
Lemma verify_help_is_not_help :
  let message := text_message 7 (utf8 "/help") in
  let button :=
    {| cb_id := 1; data := utf8 "verify_help"; cb_message := message |} in
  replies (trace (snd (run (route_callback reliable button) sample_process))) <>
  replies (trace (snd (run (cmd_help reliable message) sample_process))).
Proof. intros message button H. vm_compute in H. discriminate H. Qed.

(** C7, amended: /help and the "help" button both go through [send_help]
    and reply with the help text; the "verify_help" button replies with its
    own text on how to use /verify, which is a different one.  On a platform
    that accepts the requests, both buttons also answer the callback query
    and every entry point returns. *)
Theorem help_entry_points
    (tp : Transport) (p : Process) (message : Message) (q : N) :
  let c := msg_chat message in
  let button ident := {| cb_id := q; data := ident; cb_message := message |} in
  run (cmd_help tp message) p = run (send_help tp message) p /\
  replies (trace (snd (run (cmd_help tp message) p))) = [help_text] /\
  replies (trace (snd (run (route_callback tp (button (utf8 "help"))) p))) =
    [help_text] /\
  replies (trace (snd (run (route_callback tp (button (utf8 "verify_help"))) p))) =
    [verify_help_text] /\
  verify_help_text <> help_text /\
  (accepts tp ->
   run (cmd_help tp message) p =
     (Returned tt, {| proc := p; trace := [Answer c help_text None] |}) /\
   run (route_callback tp (button (utf8 "help"))) p =
     (Returned tt,
      {| proc := p; trace := [Answer c help_text None; AnswerCallback q] |}) /\
   run (route_callback tp (button (utf8 "verify_help"))) p =
     (Returned tt,
      {| proc := p; trace := [Answer c verify_help_text None; AnswerCallback q] |})).
Proof.
  intros c button. subst c button.
  split; [reflexivity|]. split; [reflexivity|].
  split.
  { unfold run, route_callback, callback_help, send_help, message_answer,
      callback_answer.
    cbn [data str_eqb utf8 cb_message cb_id bind Monad_Handler].
    change (str_eqb (utf8 "help") (utf8 "help")) with true. cbv iota.
    unfold hbind. cbn [proc trace app].
    destruct (send_verdict tp (msg_chat message) help_text None); reflexivity. }
  split.
  { unfold run, route_callback, callback_verify_help, message_answer,
      callback_answer.
    cbn [data cb_message cb_id bind Monad_Handler].
    change (str_eqb (utf8 "verify_help") (utf8 "help")) with false.
    change (str_eqb (utf8 "verify_help") (utf8 "verify_help")) with true.
    cbv iota. unfold hbind. cbn [proc trace app].
    destruct (send_verdict tp (msg_chat message) verify_help_text None);
      reflexivity. }
  split; [intro H; vm_compute in H; discriminate H|].
  intros [Hs Hc].
  unfold run, route_callback, callback_help, callback_verify_help, cmd_help,
    send_help, message_answer, callback_answer.
  cbn [data cb_message cb_id bind Monad_Handler].
  change (str_eqb (utf8 "help") (utf8 "help")) with true.
  change (str_eqb (utf8 "verify_help") (utf8 "help")) with false.
  change (str_eqb (utf8 "verify_help") (utf8 "verify_help")) with true.
  cbv iota. unfold hbind. cbn [proc trace app].
  rewrite !Hs, !Hc. repeat split.
Qed.

Lemma help_entry_points_witness :
  accepts reliable /\
  run (route_callback reliable
         {| cb_id := 1; data := utf8 "help";
            cb_message := text_message 7 (utf8 "/start") |}) sample_process =
    (Returned tt,
     {| proc := sample_process;
        trace := [Answer 7 help_text None; AnswerCallback 1] |}).
Proof.
  assert (A : accepts reliable) by (split; intros; reflexivity).
  split; [exact A|].
  destruct (help_entry_points reliable sample_process
              (text_message 7 (utf8 "/start")) 1) as [_ [_ [_ [_ [_ H]]]]].
  destruct (H A) as [_ [H2 _]]. exact H2.
Defined.

(** ** The health endpoint *)

(** C8: a GET for the path "/health" is answered with status 200, the
    content type text/plain and the body "OK"; a GET for any other path with
    status 404 and no body.  Either way the response carries the Server and
    Date headers that [send_response] queues. *)
Theorem health_endpoint (version date path : str) :
  (path = utf8 "/health" ->
     HealthCheckHandler.do_GET version date path HealthCheckHandler.fresh =
       {| HealthCheckHandler.status := Some 200%N;
          HealthCheckHandler.headers :=
            [(utf8 "Server", version); (utf8 "Date", date);
             (utf8 "Content-type", utf8 "text/plain")];
          HealthCheckHandler.headers_ended := true;
          HealthCheckHandler.wfile := [Byte.x4f; Byte.x4b] |}) /\
  (path <> utf8 "/health" ->
     HealthCheckHandler.do_GET version date path HealthCheckHandler.fresh =
       {| HealthCheckHandler.status := Some 404%N;
          HealthCheckHandler.headers :=
            [(utf8 "Server", version); (utf8 "Date", date)];
          HealthCheckHandler.headers_ended := true;
          HealthCheckHandler.wfile := [] |}).
Proof.
  split.
  - intros ->. reflexivity.
  - intro H. unfold HealthCheckHandler.do_GET. rewrite (str_eqb_neq _ _ H).
    reflexivity.
Qed.

Lemma health_endpoint_witness :
  let version := utf8 "BaseHTTP/0.6 Python/3.11.2" in
  let date := utf8 "Wed, 04 Nov 2026 12:00:00 GMT" in
  utf8 "/anything-else" <> utf8 "/health" /\
  HealthCheckHandler.status
    (HealthCheckHandler.do_GET version date (utf8 "/health")
       HealthCheckHandler.fresh) = Some 200%N /\
  HealthCheckHandler.wfile
    (HealthCheckHandler.do_GET version date (utf8 "/health")
       HealthCheckHandler.fresh) = [Byte.x4f; Byte.x4b] /\
  HealthCheckHandler.status
    (HealthCheckHandler.do_GET version date (utf8 "/anything-else")
       HealthCheckHandler.fresh) = Some 404%N /\
  HealthCheckHandler.wfile
    (HealthCheckHandler.do_GET version date (utf8 "/anything-else")
       HealthCheckHandler.fresh) = [].
Proof.
  intros version date.
  assert (N : utf8 "/anything-else" <> utf8 "/health") by discriminate.
  split; [exact N|].
  destruct (health_endpoint version date (utf8 "/health")) as [H1 _].
  destruct (health_endpoint version date (utf8 "/anything-else")) as [_ H2].
  rewrite (H1 eq_refl), (H2 N). repeat split.
Defined.

(** ** Beyond the contracts: the static handlers in every environment *)

(** X1: /start makes exactly one answer, leaves the process as it was, and
    ends as that send does: it returns when the platform accepts it and
    raises the platform's exception when it does not.  Without
    [MINI_APP_URL] the menu opens the default address; with a non-empty
    value it opens that value; with the empty value the answer is the
    configuration error and no menu is sent. *)
Theorem start_by_environment
    (tp : Transport) (p : Process) (message : Message) :
  let r := run (cmd_start tp message) p in
  let c := msg_chat message in
  proc (snd r) = p /\
  List.length (trace (snd r)) = 1 /\
  (env_lookup MINI_APP_URL (environ p) = None ->
     let kb := Some (start_keyboard default_mini_app_url) in
     r = (outcome_of (send_verdict tp c welcome_text kb),
          {| proc := p; trace := [Answer c welcome_text kb] |})) /\
  (forall v, env_lookup MINI_APP_URL (environ p) = Some v -> v <> [] ->
     let kb := Some (start_keyboard v) in
     r = (outcome_of (send_verdict tp c welcome_text kb),
          {| proc := p; trace := [Answer c welcome_text kb] |})) /\
  (env_lookup MINI_APP_URL (environ p) = Some [] ->
     r = (outcome_of (send_verdict tp c config_error_text None),
          {| proc := p; trace := [Answer c config_error_text None] |})).
Proof.
  intros r c. subst r c.
  unfold run, cmd_start, os_getenv, message_answer.
  cbn [bind ret Monad_Handler]. unfold hbind. cbn [proc environ trace app].
  destruct (env_lookup MINI_APP_URL (environ p)) as [[|x v]|] eqn:E;
    cbn [truthy negb fst snd proc trace app List.length];
    repeat split; try reflexivity; try discriminate.
  - intros v Hv Hne. injection Hv as <-. congruence.
  - intros v' Hv _. injection Hv as <-. reflexivity.
Qed.

Lemma start_by_environment_witness :
  env_lookup MINI_APP_URL (environ empty_url_process) = Some [] /\
  env_lookup MINI_APP_URL (environ sample_process) = None /\
  run (cmd_start reliable (text_message 7 (utf8 "/start"))) empty_url_process =
    (Returned tt,
     {| proc := empty_url_process;
        trace := [Answer 7 config_error_text None] |}) /\
  run (cmd_start reliable (text_message 7 (utf8 "/start"))) sample_process =
    (Returned tt,
     {| proc := sample_process;
        trace := [Answer 7 welcome_text
                    (Some (start_keyboard default_mini_app_url))] |}).
Proof.
  split; [reflexivity|]. split; [reflexivity|].
  destruct (start_by_environment reliable empty_url_process
              (text_message 7 (utf8 "/start"))) as [_ [_ [_ [_ H1]]]].
  destruct (start_by_environment reliable sample_process
              (text_message 7 (utf8 "/start"))) as [_ [_ [H2 _]]].
  split; [exact (H1 eq_refl) | exact (H2 eq_refl)].
Defined.

(** X2: /upload and /report never send the configuration error.  In every
    environment each makes one answer, its own text with a single button
    that opens whatever [os.getenv] gave, the empty address included, leaves
    the process as it was, and ends as that send does. *)
Theorem upload_report_by_environment
    (tp : Transport) (p : Process) (message : Message) :
  let c := msg_chat message in
  let upload_kb :=
    Some [[web_app_button (utf8 "📊 Open Trade Analyzer") (effective_url p)]] in
  let report_kb :=
    Some [[web_app_button (utf8 "📊 Open Report") (effective_url p)]] in
  run (cmd_upload tp message) p =
    (outcome_of (send_verdict tp c upload_text upload_kb),
     {| proc := p; trace := [Answer c upload_text upload_kb] |}) /\
  run (cmd_report tp message) p =
    (outcome_of (send_verdict tp c report_text report_kb),
     {| proc := p; trace := [Answer c report_text report_kb] |}) /\
  ~ In config_error_text (replies (trace (snd (run (cmd_upload tp message) p)))) /\
  ~ In config_error_text (replies (trace (snd (run (cmd_report tp message) p)))).
Proof.
  intros c upload_kb report_kb. split; [reflexivity|]. split; [reflexivity|].
  split; cbn; intros [H|[]]; vm_compute in H; discriminate H.
Qed.

(** X3: the menu of /start has no dead button.  Whenever /start sends a
    keyboard, its web-app button opens the address the buttons of /upload
    and /report open in the same process, and each of its two callback
    buttons carries an identifier that the callback routes handle, on a
    platform that accepts the requests, with a reply to the chat followed by
    the answer to the query. *)
Theorem start_menu_is_live
    (tp : Transport) (p : Process) (message : Message) (q : N) (text : str)
    (kb : InlineKeyboardMarkup) :
  In (Answer (msg_chat message) text (Some kb))
     (trace (snd (run (cmd_start tp message) p))) ->
  accepts tp ->
  web_app_urls kb = [effective_url p] /\
  (forall kb', In (Answer (msg_chat message) upload_text (Some kb'))
                  (trace (snd (run (cmd_upload tp message) p))) ->
               web_app_urls kb' = web_app_urls kb) /\
  (forall kb', In (Answer (msg_chat message) report_text (Some kb'))
                  (trace (snd (run (cmd_report tp message) p))) ->
               web_app_urls kb' = web_app_urls kb) /\
  List.length (callback_idents kb) = 2 /\
  Forall (fun d =>
            exists reply,
              run (route_callback tp
                     {| cb_id := q; data := d; cb_message := message |}) p =
                (Returned tt,
                 {| proc := p;
                    trace := [Answer (msg_chat message) reply None;
                              AnswerCallback q] |}))
         (callback_idents kb).
Proof.
  intros Hin [Hs Hc]. revert Hin.
  unfold run, cmd_start, cmd_upload, cmd_report, os_getenv, message_answer,
    effective_url.
  cbn [bind ret Monad_Handler]. unfold hbind. cbn [proc environ trace app snd].
  assert (R : forall d reply,
            (d = utf8 "verify_help" /\ reply = verify_help_text) \/
            (d = utf8 "help" /\ reply = help_text) ->
            (fun s => route_callback tp
                        {| cb_id := q; data := d; cb_message := message |} s)
              {| proc := p; trace := [] |} =
            (Returned tt,
             {| proc := p;
                trace := [Answer (msg_chat message) reply None;
                          AnswerCallback q] |})).
  { intros d reply [[-> ->]|[-> ->]];
      unfold route_callback, callback_help, callback_verify_help, send_help,
        message_answer, callback_answer;
      cbn [data cb_message cb_id bind Monad_Handler];
      [change (str_eqb (utf8 "verify_help") (utf8 "help")) with false;
       change (str_eqb (utf8 "verify_help") (utf8 "verify_help")) with true
      |change (str_eqb (utf8 "help") (utf8 "help")) with true];
      cbv iota; unfold hbind; cbn [proc trace app];
      rewrite Hs, Hc; reflexivity. }
  destruct (env_lookup MINI_APP_URL (environ p)) as [[|x v]|];
    cbn [truthy negb snd trace In]; intros [H|[]]; try discriminate H;
    injection H as _ <-.
  - split; [reflexivity|].
    split; [intros kb' [H|[]]; injection H as <-; reflexivity|].
    split; [intros kb' [H|[]]; injection H as <-; reflexivity|].
    split; [reflexivity|].
    repeat constructor; eexists; apply R; auto.
  - split; [reflexivity|].
    split; [intros kb' [H|[]]; injection H as <-; reflexivity|].
    split; [intros kb' [H|[]]; injection H as <-; reflexivity|].
    split; [reflexivity|].
    repeat constructor; eexists; apply R; auto.
Qed.

Lemma start_menu_is_live_witness :
  In (Answer 7 welcome_text (Some (start_keyboard default_mini_app_url)))
     (trace (snd (run (cmd_start reliable (text_message 7 (utf8 "/start")))
                    sample_process))) /\
  accepts reliable /\
  web_app_urls (start_keyboard default_mini_app_url) =
    [effective_url sample_process] /\
  callback_idents (start_keyboard default_mini_app_url) =
    [utf8 "verify_help"; utf8 "help"].
Proof.
  assert (H : In (Answer 7 welcome_text (Some (start_keyboard default_mini_app_url)))
                 (trace (snd (run (cmd_start reliable (text_message 7 (utf8 "/start")))
                                sample_process))))
    by (left; reflexivity).
  assert (A : accepts reliable) by (split; intros; reflexivity).
  split; [exact H|]. split; [exact A|].
  destruct (start_menu_is_live reliable sample_process
              (text_message 7 (utf8 "/start")) 1
              welcome_text (start_keyboard default_mini_app_url) H A) as [H1 _].
  split; [exact H1 | reflexivity].
Defined.

(** ** Beyond the contracts: /verify on every message *)

Lemma drop_while_head (f : char -> bool) (s r : str) (x : char) :
  drop_while f s = x :: r -> f x = false.
Proof.
  induction s as [|y s IH]; simpl; [discriminate|].
  destruct (f y) eqn:E; [exact IH|]. intro H. injection H as <- _. exact E.
Qed.

(** What [split(maxsplit=1)] can return: fewer than two parts, or a keyword
    and an argument that opens with a code point that is not whitespace. *)
Lemma split_shape (t : str) :
  List.length (split_maxsplit1 t) < 2 \/
  exists kw x r, split_maxsplit1 t = [kw; x :: r] /\ isspace x = false.
Proof.
  unfold split_maxsplit1.
  destruct (lstrip t) as [|c w]; [left; simpl; lia|].
  destruct (lstrip (drop_while (fun x => negb (isspace x)) w)) as [|x r] eqn:E.
  - left. simpl. lia.
  - right. exists (c :: take_while (fun x => negb (isspace x)) w), x, r.
    split; [reflexivity|]. exact (drop_while_head _ _ _ _ E).
Qed.

Lemma drop_while_keeps_last (f : char -> bool) (l : str) (x : char) :
  f x = false -> exists m, drop_while f (l ++ [x]) = m ++ [x].
Proof.
  intro Hx. induction l as [|z l IH]; simpl.
  - rewrite Hx. exists []. reflexivity.
  - destruct (f z); [exact IH|]. exists (z :: l). reflexivity.
Qed.

(** An argument that [split] returned is not empty after [strip], and still
    opens with its first code point. *)
Lemma strip_argument (x : char) (r : str) :
  isspace x = false -> exists a, strip (x :: r) = x :: a.
Proof.
  intro Hx. unfold strip, lstrip. simpl. rewrite Hx.
  unfold rstrip. simpl.
  destruct (drop_while_keeps_last isspace (rev r) x Hx) as [m ->].
  rewrite rev_app_distr. simpl. eexists. reflexivity.
Qed.

Lemma forallb_rev (f : char -> bool) (s : str) :
  forallb f s = true -> forallb f (rev s) = true.
Proof.
  intro H. apply forallb_forall. intros x Hx. apply in_rev in Hx.
  exact (proj1 (forallb_forall f s) H x Hx).
Qed.

Lemma rstrip_trailing (s trail : str) :
  forallb isspace trail = true -> rstrip (s ++ trail) = rstrip s.
Proof.
  intro H. unfold rstrip. rewrite rev_app_distr.
  rewrite drop_while_app_all by (apply forallb_rev; exact H). reflexivity.
Qed.

Lemma lstrip_app (s r : str) :
  existsb (fun x => negb (isspace x)) s = true -> lstrip (s ++ r) = lstrip s ++ r.
Proof.
  unfold lstrip. induction s as [|x s IH]; simpl; intro H; [discriminate|].
  destruct (isspace x); simpl in H; [apply IH, H | reflexivity].
Qed.

Lemma strip_trailing (s trail : str) :
  existsb (fun x => negb (isspace x)) s = true ->
  forallb isspace trail = true -> strip (s ++ trail) = strip s.
Proof.
  intros Hs Ht. unfold strip. rewrite lstrip_app by exact Hs.
  apply rstrip_trailing, Ht.
Qed.

Lemma contains_prefix (n b : str) : contains n (n ++ b) = true.
Proof.
  assert (E : forall h, contains n h =
                        startswith n h ||
                        match h with [] => false | _ :: h' => contains n h' end)
    by (intros [|y h]; reflexivity).
  rewrite E, startswith_app. reflexivity.
Qed.

Lemma existsb_app_l (f : char -> bool) (s r : str) :
  existsb f s = true -> existsb f (s ++ r) = true.
Proof. intro H. rewrite existsb_app, H. reflexivity. Qed.

(** X4: a /verify update without text (a caption command) makes the handler
    raise on [message.text.split] before anything is sent or looked up. *)
Theorem verify_without_text
    (tp : Transport) (telegram : str -> exn + Chat) (p : Process) (c : N) :
  let r := run (cmd_verify tp telegram {| msg_chat := c; msg_text := None |}) p in
  (exists e,
     fst r = Raised e /\
     exn_str e = utf8 "'NoneType' object has no attribute 'split'") /\
  snd r = {| proc := p; trace := [] |}.
Proof.
  intro r. split; [|reflexivity].
  eexists. split; reflexivity.
Qed.

(** X5: whatever the text, the platform and the state of the [bot] global,
    /verify leaves the process as it was and makes between one and three
    answers, all to the chat of the message and without keyboard, at most
    one lookup and at most one log record.  When the platform accepts the
    replies to the chat, the handler returns, whatever exception the lookup
    raised, after one or two answers. *)
Theorem verify_effects_are_bounded
    (tp : Transport) (telegram : str -> exn + Chat) (p : Process) (c : N)
    (t : str) :
  let r := run (cmd_verify tp telegram (text_message c t)) p in
  proc (snd r) = p /\
  1 <= List.length (replies (trace (snd r))) <= 3 /\
  List.length (lookups (trace (snd r))) <= 1 /\
  List.length (log_records (trace (snd r))) <= 1 /\
  Forall (plain_reply_to c) (trace (snd r)) /\
  ((forall text, send_verdict tp c text None = None) ->
   fst r = Returned tt /\ List.length (replies (trace (snd r))) <= 2).
Proof.
  intro r. subst r.
  destruct (split_shape t) as [H|[kw [x [a [H _]]]]].
  - rewrite (run_verify_usage tp telegram p c t H).
    cbn [fst snd proc trace replies lookups log_records flat_map app List.length].
    split; [reflexivity|]. split; [lia|]. split; [lia|]. split; [lia|].
    split; [repeat constructor|].
    intro Hacc. rewrite Hacc. split; [reflexivity | lia].
  - verify_run H.
    split; [verify_cases; reflexivity|].
    split; [verify_cases; cbn; lia|].
    split; [verify_cases; cbn; lia|].
    split; [verify_cases; cbn; lia|].
    split; [verify_cases; repeat constructor|].
    intro Hacc. rewrite !Hacc.
    destruct (bot p) as [b|];
      [destruct (telegram (utf8 "@" ++ normalize_username (x :: a))) as [e|chat];
       [destruct (is_not_found e)|rewrite Hacc]|
       rewrite (attribute_error_is_other _ eq_refl)];
      cbn; split; try reflexivity; lia.
Qed.

Lemma verify_effects_are_bounded_witness :
  (forall text, send_verdict reliable 7 text None = None) /\
  fst (run (cmd_verify reliable sample_telegram (text_message 7 (utf8 "/verify slow")))
         sample_process) = Returned tt.
Proof.
  split; [intro text; reflexivity|].
  destruct (verify_effects_are_bounded reliable sample_telegram sample_process 7
              (utf8 "/verify slow")) as [_ [_ [_ [_ [_ H]]]]].
  destruct (H (fun _ => eq_refl)) as [H1 _]. exact H1.
Defined.

(** X6: while the [bot] global is unassigned, a /verify with an argument
    makes no lookup: after the accepted acknowledgement the attribute error
    is caught like a failed lookup, logged, and answered with the "Error
    checking" text, and the handler ends as that last send does. *)
Theorem verify_with_unassigned_bot
    (tp : Transport) (telegram : str -> exn + Chat) (p : Process) (c : N)
    (t kw arg : str) :
  bot p = None ->
  split_maxsplit1 t = [kw; arg] ->
  send_verdict tp c (checking_text (normalize_username arg)) None = None ->
  let username := normalize_username arg in
  let r := run (cmd_verify tp telegram (text_message c t)) p in
  r = (outcome_of (send_verdict tp c (error_checking_text username) None),
       {| proc := p;
          trace :=
            [Answer c (checking_text username) None;
             LogError (utf8 "Error verifying " ++ username ++
                       utf8 ": 'NoneType' object has no attribute 'get_chat'");
             Answer c (error_checking_text username) None] |}) /\
  lookups (trace (snd r)) = [].
Proof.
  intros Hbot Hsplit Hack username r. subst r username.
  verify_run Hsplit. rewrite Hack, Hbot.
  rewrite (attribute_error_is_other _ eq_refl).
  split; reflexivity.
Qed.

Lemma verify_with_unassigned_bot_witness :
  bot {| bot := None; environ := [] |} = None /\
  split_maxsplit1 (utf8 "/verify @dexscreener") =
    [utf8 "/verify"; utf8 "@dexscreener"] /\
  send_verdict reliable 7
    (checking_text (normalize_username (utf8 "@dexscreener"))) None = None /\
  run (cmd_verify reliable sample_telegram
         (text_message 7 (utf8 "/verify @dexscreener")))
      {| bot := None; environ := [] |} =
    (Returned tt,
     {| proc := {| bot := None; environ := [] |};
        trace :=
          [Answer 7 (checking_text (utf8 "dexscreener")) None;
           LogError (utf8 "Error verifying dexscreener: 'NoneType' object has no attribute 'get_chat'");
           Answer 7 (error_checking_text (utf8 "dexscreener")) None] |}).
Proof.
  split; [reflexivity|]. split; [reflexivity|]. split; [reflexivity|].
  destruct (verify_with_unassigned_bot reliable sample_telegram
              {| bot := None; environ := [] |} 7 (utf8 "/verify @dexscreener")
              (utf8 "/verify") (utf8 "@dexscreener") eq_refl eq_refl eq_refl)
    as [H _].
  exact H.
Defined.

(** X7: the usage text is among the answers exactly when [split] returns
    fewer than two parts, whatever the platform decides; a lookup is made
    only when [split] returns two parts, and, with the [bot] global
    assigned, it is made, once, as soon as the platform accepts the
    acknowledgement; [split] never returns more than two parts. *)
Theorem verify_usage_iff_no_argument
    (tp : Transport) (telegram : str -> exn + Chat) (p : Process) (b : Bot)
    (c : N) (t : str) :
  bot p = Some b ->
  let tr := trace (snd (run (cmd_verify tp telegram (text_message c t)) p)) in
  (In usage_text (replies tr) <-> List.length (split_maxsplit1 t) < 2) /\
  (lookups tr <> [] -> List.length (split_maxsplit1 t) = 2) /\
  (forall kw arg,
     split_maxsplit1 t = [kw; arg] ->
     send_verdict tp c (checking_text (normalize_username arg)) None = None ->
     lookups tr = [utf8 "@" ++ normalize_username arg]) /\
  List.length (split_maxsplit1 t) <= 2.
Proof.
  intros Hbot tr. subst tr.
  destruct (split_shape t) as [H|[kw [x [a [H _]]]]].
  - rewrite (run_verify_usage tp telegram p c t H). cbn [snd trace].
    cbn [replies lookups flat_map app In].
    split; [split; [intros _; exact H | intros _; left; reflexivity]|].
    split; [intro K; congruence|].
    split; [intros kw arg K; rewrite K in H; simpl in H; lia | lia].
  - pose proof (no_usage_with_argument tp telegram p c t kw (x :: a) H) as NU.
    split; [split; [intro K; contradiction | rewrite H; simpl; lia]|].
    split; [intros _; rewrite H; reflexivity|].
    split; [|rewrite H; simpl; lia].
    intros kw' arg K Hack. rewrite H in K. injection K as <- <-.
    verify_run H. rewrite Hack, Hbot. verify_cases; reflexivity.
Qed.

Lemma verify_usage_iff_no_argument_witness :
  bot sample_process = Some sample_bot /\
  split_maxsplit1 (utf8 "/verify a b c") = [utf8 "/verify"; utf8 "a b c"] /\
  send_verdict html_strict 7 (checking_text (normalize_username (utf8 "a b c")))
    None = None /\
  lookups (trace (snd (run (cmd_verify html_strict sample_telegram
                              (text_message 7 (utf8 "/verify a b c")))
                         sample_process))) = [utf8 "@a b c"].
Proof.
  split; [reflexivity|]. split; [reflexivity|]. split; [reflexivity|].
  destruct (verify_usage_iff_no_argument html_strict sample_telegram
              sample_process sample_bot 7 (utf8 "/verify a b c") eq_refl)
    as [_ [_ [H _]]].
  exact (H (utf8 "/verify") (utf8 "a b c") eq_refl eq_refl).
Defined.

(** X8: the acknowledgement names exactly the identifier that is looked up:
    once the platform has accepted it, the lookup is made for an identifier
    that opens with [@], and the acknowledgement is "Checking ", that
    identifier, and "...". *)
Theorem verify_ack_names_lookup
    (tp : Transport) (telegram : str -> exn + Chat) (p : Process) (b : Bot)
    (c : N) (t kw arg : str) :
  bot p = Some b ->
  split_maxsplit1 t = [kw; arg] ->
  send_verdict tp c (checking_text (normalize_username arg)) None = None ->
  let tr := trace (snd (run (cmd_verify tp telegram (text_message c t)) p)) in
  exists ident,
    lookups tr = [ident] /\
    startswith (utf8 "@") ident = true /\
    hd_error (replies tr) = Some (utf8 "🔍 Checking " ++ ident ++ utf8 "...").
Proof.
  intros Hbot Hsplit Hack tr. subst tr.
  verify_run Hsplit. rewrite Hack, Hbot.
  exists (utf8 "@" ++ normalize_username arg).
  split; [verify_cases; reflexivity|].
  split; [reflexivity|]. verify_cases; reflexivity.
Qed.

Lemma verify_ack_names_lookup_witness :
  bot sample_process = Some sample_bot /\
  split_maxsplit1 (utf8 "/verify whale_alert") =
    [utf8 "/verify"; utf8 "whale_alert"] /\
  send_verdict reliable 7
    (checking_text (normalize_username (utf8 "whale_alert"))) None = None /\
  exists ident,
    lookups (trace (snd (run (cmd_verify reliable sample_telegram
                                (text_message 7 (utf8 "/verify whale_alert")))
                           sample_process))) = [ident] /\
    startswith (utf8 "@") ident = true /\
    hd_error (replies (trace (snd (run (cmd_verify reliable sample_telegram
                                          (text_message 7 (utf8 "/verify whale_alert")))
                                     sample_process)))) =
      Some (utf8 "🔍 Checking " ++ ident ++ utf8 "...").
Proof.
  split; [reflexivity|]. split; [reflexivity|]. split; [reflexivity|].
  exact (verify_ack_names_lookup reliable sample_telegram sample_process
           sample_bot 7 (utf8 "/verify whale_alert") (utf8 "/verify")
           (utf8 "whale_alert") eq_refl eq_refl eq_refl).
Defined.

(** X9: an argument that [split] returned is never empty after [strip], and
    the username is empty exactly when the stripped argument is the single
    code point [@]; so the lookup that follows the accepted acknowledgement
    is for the bare "@" exactly then. *)
Theorem verify_bare_at_only_for_lone_at
    (tp : Transport) (telegram : str -> exn + Chat) (p : Process) (b : Bot)
    (c : N) (t kw arg : str) :
  bot p = Some b ->
  split_maxsplit1 t = [kw; arg] ->
  let tr := trace (snd (run (cmd_verify tp telegram (text_message c t)) p)) in
  strip arg <> [] /\
  (normalize_username arg = [] <-> strip arg = utf8 "@") /\
  (send_verdict tp c (checking_text (normalize_username arg)) None = None ->
   (lookups tr = [utf8 "@"] <-> strip arg = utf8 "@")).
Proof.
  intros Hbot Hsplit tr. subst tr.
  assert (Hne : exists x a, strip arg = x :: a).
  { destruct (split_shape t) as [H|[kw' [x [r [H Hx]]]]].
    - rewrite Hsplit in H. simpl in H. lia.
    - rewrite Hsplit in H. injection H as _ ->.
      destruct (strip_argument x r Hx) as [a Ha]. eauto. }
  destruct Hne as [x [a Hs]].
  assert (U : normalize_username arg = [] <-> strip arg = utf8 "@").
  { unfold normalize_username. rewrite Hs. cbn [startswith utf8].
    change (utf8 "@") with [64%N]. cbn [startswith].
    destruct (N.eqb_spec 64 x) as [<-|Hx]; cbn [andb skipn].
    - split; [intros -> | intro H; injection H as ->]; reflexivity.
    - split; [discriminate | intro H; injection H as H1 _; congruence]. }
  split; [rewrite Hs; discriminate|]. split; [exact U|].
  intro Hack.
  assert (L : lookups (trace (snd (run (cmd_verify tp telegram
                                          (text_message c t)) p))) =
              [utf8 "@" ++ normalize_username arg]).
  { verify_run Hsplit. rewrite Hack, Hbot. verify_cases; reflexivity. }
  rewrite L. rewrite <- U. change (utf8 "@") with [64%N]. cbn [app].
  split; intro H; [injection H as H; exact H | rewrite H; reflexivity].
Qed.

Lemma verify_bare_at_only_for_lone_at_witness :
  bot sample_process = Some sample_bot /\
  split_maxsplit1 (utf8 "/verify  @  ") = [utf8 "/verify"; utf8 "@  "] /\
  strip (utf8 "@  ") = utf8 "@" /\
  send_verdict reliable 7 (checking_text (normalize_username (utf8 "@  "))) None =
    None /\
  lookups (trace (snd (run (cmd_verify reliable sample_telegram
                              (text_message 7 (utf8 "/verify  @  ")))
                         sample_process))) = [utf8 "@"].
Proof.
  split; [reflexivity|]. split; [reflexivity|]. split; [reflexivity|].
  split; [reflexivity|].
  destruct (verify_bare_at_only_for_lone_at reliable sample_telegram
              sample_process sample_bot 7 (utf8 "/verify  @  ") (utf8 "/verify")
              (utf8 "@  ") eq_refl eq_refl) as [_ [_ H]].
  destruct (H eq_refl) as [_ H']. exact (H' eq_refl).
Defined.

(** X10: the handler looks neither at the command keyword nor at the amount
    of whitespace around the argument: two messages with the same argument
    run alike, whatever their keywords, the whitespace between keyword and
    argument, and the whitespace behind the argument. *)
Theorem verify_ignores_keyword_and_padding
    (tp : Transport) (telegram : str -> exn + Chat) (p : Process) (c : N)
    (kw kw' sep sep' arg trail : str) :
  kw <> [] -> forallb (fun x => negb (isspace x)) kw = true ->
  kw' <> [] -> forallb (fun x => negb (isspace x)) kw' = true ->
  sep <> [] -> forallb isspace sep = true ->
  sep' <> [] -> forallb isspace sep' = true ->
  forallb isspace trail = true ->
  existsb (fun x => negb (isspace x)) arg = true ->
  run (cmd_verify tp telegram (text_message c (kw ++ sep ++ arg ++ trail))) p =
  run (cmd_verify tp telegram (text_message c (kw' ++ sep' ++ arg))) p.
Proof.
  intros K1 K2 K1' K2' S1 S2 S1' S2' T A.
  rewrite (run_verify_argument tp telegram p c _ kw (lstrip (arg ++ trail))
             (split_with_arg kw sep (arg ++ trail) K1 K2 S1 S2
                (existsb_app_l _ arg trail A))).
  rewrite (run_verify_argument tp telegram p c _ kw' (lstrip arg)
             (split_with_arg kw' sep' arg K1' K2' S1' S2' A)).
  assert (E : normalize_username (lstrip (arg ++ trail)) =
              normalize_username (lstrip arg)).
  { unfold normalize_username. rewrite !strip_lstrip.
    rewrite (strip_trailing arg trail A T). reflexivity. }
  cbv zeta. rewrite E. reflexivity.
Qed.

Lemma verify_ignores_keyword_and_padding_witness :
  utf8 "/verify" <> [] /\ utf8 "/check" <> [] /\
  utf8 "   " <> [] /\ utf8 " " <> [] /\
  forallb isspace (utf8 "  ") = true /\
  existsb (fun x => negb (isspace x)) (utf8 "@dexscreener") = true /\
  run (cmd_verify html_strict sample_telegram
         (text_message 7 (utf8 "/verify" ++ utf8 "   " ++ utf8 "@dexscreener" ++ utf8 "  ")))
      sample_process =
  run (cmd_verify html_strict sample_telegram
         (text_message 7 (utf8 "/check" ++ utf8 " " ++ utf8 "@dexscreener")))
      sample_process.
Proof.
  split; [discriminate|]. split; [discriminate|]. split; [discriminate|].
  split; [discriminate|]. split; [reflexivity|]. split; [reflexivity|].
  apply verify_ignores_keyword_and_padding;
    first [discriminate | reflexivity].
Defined.

(** X11: the username is put into the replies as it is, with no escaping:
    every answer of a run with an argument contains it. *)
Theorem verify_echoes_username
    (tp : Transport) (telegram : str -> exn + Chat) (p : Process) (c : N)
    (t kw arg : str) :
  split_maxsplit1 t = [kw; arg] ->
  Forall (fun reply => contains (normalize_username arg) reply = true)
         (replies (trace (snd (run (cmd_verify tp telegram (text_message c t)) p)))).
Proof.
  intro Hsplit. verify_run Hsplit.
  set (u := normalize_username arg).
  assert (A : contains u (checking_text u) = true)
    by (unfold checking_text; apply contains_app_r, contains_prefix).
  assert (B : contains u (cannot_verify_text u) = true)
    by (unfold cannot_verify_text; apply contains_app_r, contains_prefix).
  assert (C : contains u (error_checking_text u) = true)
    by (unfold error_checking_text; apply contains_app_r, contains_prefix).
  assert (D : forall chat, contains u (build_response u chat) = true).
  { intro chat. unfold build_response. apply contains_app_l.
    assert (H : contains u (response_head u chat) = true)
      by (unfold response_head; apply contains_app_r, contains_app_r,
            contains_prefix).
    destruct (description chat) as [d|]; [destruct (truthy d)|];
      try exact H. apply contains_app_l, H. }
  verify_cases; cbn [replies flat_map app]; repeat constructor; auto.
Qed.

Lemma verify_echoes_username_witness :
  split_maxsplit1 (utf8 "/verify <b>x</b>") = [utf8 "/verify"; utf8 "<b>x</b>"] /\
  Forall (fun reply => contains (utf8 "<b>x</b>") reply = true)
         (replies (trace (snd (run (cmd_verify reliable sample_telegram
                                      (text_message 7 (utf8 "/verify <b>x</b>")))
                                 sample_process)))).
Proof.
  split; [reflexivity|].
  exact (verify_echoes_username reliable sample_telegram sample_process 7
           (utf8 "/verify <b>x</b>") (utf8 "/verify") (utf8 "<b>x</b>") eq_refl).
Defined.

(** ** Beyond the contracts: the report and the error classes *)

(** X12: the rendered description is never longer than 103 code points and
    never longer than the description plus the marker; its first 100 code
    points are those of the description; a description cut to 100 code
    points passes unchanged; and rendering a rendered description again
    changes nothing. *)
Theorem truncate_description_bounds (d : str) :
  List.length (truncate_description d) <= 103 /\
  List.length (truncate_description d) <= List.length d + 3 /\
  firstn 100 (truncate_description d) = firstn 100 d /\
  truncate_description (firstn 100 d) = firstn 100 d /\
  truncate_description (truncate_description d) = truncate_description d.
Proof.
  assert (Short : forall s, List.length s <= 100 -> truncate_description s = s).
  { intros s Hs. unfold truncate_description.
    destruct (Nat.ltb_spec 100 (List.length s)); [lia | reflexivity]. }
  assert (Long : forall s, 100 < List.length s ->
                 truncate_description s = firstn 100 s ++ utf8 "...").
  { intros s Hs. unfold truncate_description.
    destruct (Nat.ltb_spec 100 (List.length s)); [reflexivity | lia]. }
  assert (F : List.length (firstn 100 d) <= 100)
    by (rewrite length_firstn; lia).
  rewrite (Short _ F).
  destruct (Nat.lt_ge_cases 100 (List.length d)) as [Hlong|Hshort].
  - assert (L : List.length (firstn 100 d) = 100)
      by (rewrite length_firstn; lia).
    assert (P : firstn 100 (firstn 100 d ++ utf8 "...") = firstn 100 d).
    { rewrite firstn_app, L. simpl (100 - 100). simpl (firstn 0 _).
      rewrite app_nil_r. apply firstn_all2. lia. }
    rewrite (Long d Hlong).
    assert (B : 100 < List.length (firstn 100 d ++ utf8 "..."))
      by (rewrite length_app, L; simpl; lia).
    rewrite (Long _ B), P, length_app, L.
    simpl (List.length (utf8 "...")).
    repeat split; lia.
  - rewrite !(Short d Hshort). repeat split; lia.
Qed.

(** X13: a chat with an empty title is reported exactly like a chat with no
    title, as "N/A", an empty description exactly like no description,
    without its line, and an empty type as "Unknown". *)
Theorem report_of_missing_fields (username type : str) (t d : option str) :
  build_response username {| chat_type := type; title := Some []; description := d |} =
  build_response username {| chat_type := type; title := None; description := d |} /\
  build_response username {| chat_type := type; title := t; description := Some [] |} =
  build_response username {| chat_type := type; title := t; description := None |} /\
  build_response username {| chat_type := []; title := None; description := None |} =
    nl ++ utf8 "📊 <b>Verification Report: @" ++ username ++ utf8 "</b>" ++ nl ++
    nl ++
    utf8 "✅ Active" ++ nl ++
    utf8 "📌 Type: Unknown" ++ nl ++
    utf8 "👥 Title: N/A" ++ nl ++
    response_foot.
Proof.
  split; [reflexivity|]. split; [reflexivity|].
  unfold build_response, response_head. cbn [description chat_type title truthy
    or_default chat_truthy].
  rewrite <- !app_assoc. reflexivity.
Qed.

(** X14: a title and a description of at most 100 code points are put into
    the report as they are, with no escaping of markup. *)
Theorem report_inserts_fields_verbatim (username : str) (chat : Chat) (s : str) :
  s <> [] ->
  (title chat = Some s -> contains s (build_response username chat) = true) /\
  (description chat = Some s -> List.length s <= 100 ->
     contains s (build_response username chat) = true).
Proof.
  intro Hne. destruct s as [|x s]; [congruence|]. split.
  - intro Ht. unfold build_response. apply contains_app_l.
    assert (H : contains (x :: s) (response_head username chat) = true).
    { unfold response_head. rewrite Ht. cbn [or_default truthy].
      do 12 apply contains_app_r. apply contains_prefix. }
    destruct (description chat) as [d|]; [destruct (truthy d)|]; try exact H.
    apply contains_app_l, H.
  - intros Hd Hlen. unfold build_response. rewrite Hd. cbn [truthy].
    apply contains_app_l, contains_app_r. unfold bio_line, truncate_description.
    destruct (Nat.ltb_spec 100 (List.length (x :: s))); [lia|].
    apply contains_app_r, contains_prefix.
Qed.

Lemma report_inserts_fields_verbatim_witness :
  utf8 "<a href='x'>" <> [] /\
  contains (utf8 "<a href='x'>")
    (build_response (utf8 "u")
       {| chat_type := utf8 "channel"; title := Some (utf8 "<a href='x'>");
          description := None |}) = true.
Proof.
  split; [discriminate|].
  destruct (report_inserts_fields_verbatim (utf8 "u")
              {| chat_type := utf8 "channel"; title := Some (utf8 "<a href='x'>");
                 description := None |} (utf8 "<a href='x'>") ltac:(discriminate))
    as [H _].
  exact (H eq_refl).
Defined.

Lemma lower_app (a b : str) : lower (a ++ b) = lower a ++ lower b.
Proof. apply flat_map_app. Qed.

Lemma lower_char_upper (c : char) : lower_char (upper_ascii c) = lower_char c.
Proof.
  unfold upper_ascii.
  destruct ((97 <=? c)%N && (c <=? 122)%N) eqn:E; [|reflexivity].
  apply andb_true_iff in E. destruct E as [E1 E2].
  apply N.leb_le in E1. apply N.leb_le in E2.
  unfold lower_char.
  assert (A : ((65 <=? c - 32) && (c - 32 <=? 90))%N = true).
  { apply andb_true_iff. split; apply N.leb_le; lia. }
  assert (B : ((65 <=? c) && (c <=? 90))%N = false).
  { apply andb_false_iff. right. apply N.leb_gt. lia. }
  assert (C : (c =? 304)%N = false) by (apply N.eqb_neq; lia).
  assert (D : (c =? 8490)%N = false) by (apply N.eqb_neq; lia).
  rewrite A, B, C, D. f_equal. lia.
Qed.

Lemma lower_upper (s : str) : lower (map upper_ascii s) = lower s.
Proof.
  induction s as [|c s IH]; [reflexivity|].
  unfold lower in *. cbn [map flat_map].
  rewrite lower_char_upper, IH. reflexivity.
Qed.

(** X15: the class of a failure does not depend on the case of the ASCII
    letters of its text, and a text that carries "chat not found" or "bad
    request", in any letter case and anywhere inside it, is of the "cannot
    verify" class. *)
Theorem failure_class_ignores_case (pre mid post : str) :
  lower mid = utf8 "chat not found" \/ lower mid = utf8 "bad request" ->
  is_not_found {| exn_str := pre ++ mid ++ post |} = true /\
  is_not_found {| exn_str := map upper_ascii (pre ++ mid ++ post) |} = true /\
  forall s,
    is_not_found {| exn_str := map upper_ascii s |} = is_not_found {| exn_str := s |}.
Proof.
  intro H.
  assert (U : forall s, is_not_found {| exn_str := map upper_ascii s |} =
                        is_not_found {| exn_str := s |}).
  { intro s. unfold is_not_found. cbn [exn_str]. rewrite lower_upper. reflexivity. }
  assert (T : is_not_found {| exn_str := pre ++ mid ++ post |} = true).
  { unfold is_not_found. cbn [exn_str]. rewrite !lower_app.
    apply orb_true_iff. destruct H as [-> | ->]; [left | right];
      apply contains_app_r, contains_prefix. }
  split; [exact T|]. split; [rewrite U; exact T | exact U].
Qed.

Lemma failure_class_ignores_case_witness :
  lower (utf8 "Bad Request") = utf8 "bad request" /\
  is_not_found
    {| exn_str := utf8 "Telegram server says - " ++ utf8 "Bad Request" ++
                  utf8 ": can't parse entities" |} = true.
Proof.
  split; [reflexivity|].
  destruct (failure_class_ignores_case (utf8 "Telegram server says - ")
              (utf8 "Bad Request") (utf8 ": can't parse entities")
              (or_intror eq_refl)) as [H _].
  exact H.
Defined.

Lemma error_checking_is_no_other_reply (username : str) :
  error_checking_text username <> checking_text username /\
  error_checking_text username <> cannot_verify_text username /\
  forall chat, error_checking_text username <> build_response username chat.
Proof.
  split; [|split].
  - intro H. vm_compute in H. discriminate H.
  - intro H. vm_compute in H. discriminate H.
  - intros chat H. apply (f_equal (@hd_error char)) in H.
    rewrite build_response_head in H. vm_compute in H. discriminate H.
Qed.

(** X16: in a run with an argument, a log record is written exactly when
    the "Error checking" text is among the answers: the report and the
    "Cannot verify" reply leave no record, and no failure shown as "Error
    checking" goes unrecorded.  This holds whatever the platform accepts or
    refuses. *)
Theorem verify_logs_iff_error_checking
    (tp : Transport) (telegram : str -> exn + Chat) (p : Process) (c : N)
    (t kw arg : str) :
  split_maxsplit1 t = [kw; arg] ->
  let tr := trace (snd (run (cmd_verify tp telegram (text_message c t)) p)) in
  (List.length (log_records tr) = 1 <->
   In (error_checking_text (normalize_username arg)) (replies tr)) /\
  (log_records tr = [] <->
   ~ In (error_checking_text (normalize_username arg)) (replies tr)).
Proof.
  intros Hsplit tr. subst tr.
  verify_run Hsplit.
  set (u := normalize_username arg).
  destruct (error_checking_is_no_other_reply u) as [E1 [E2 E3]].
  assert (No : forall l,
            Forall (fun r => error_checking_text u <> r) l ->
            ~ In (error_checking_text u) l).
  { intros l Hl K. rewrite Forall_forall in Hl. exact (Hl _ K eq_refl). }
  verify_cases; cbn [replies log_records flat_map app List.length];
    (split; split; intro K;
     try discriminate K; try reflexivity;
     try (apply No; repeat constructor; auto; fail);
     try (exfalso; revert K; apply No; repeat constructor; auto; fail);
     try (cbn [In]; auto; fail);
     try (exfalso; apply K; cbn [In]; auto; fail)).
Qed.

Lemma verify_logs_iff_error_checking_witness :
  split_maxsplit1 (utf8 "/verify slow") = [utf8 "/verify"; utf8 "slow"] /\
  In (error_checking_text (utf8 "slow"))
     (replies (trace (snd (run (cmd_verify reliable sample_telegram
                                  (text_message 7 (utf8 "/verify slow")))
                             sample_process)))) /\
  List.length (log_records (trace (snd (run (cmd_verify reliable sample_telegram
                                               (text_message 7 (utf8 "/verify slow")))
                                          sample_process)))) = 1.
Proof.
  split; [reflexivity|].
  assert (H : In (error_checking_text (utf8 "slow"))
                 (replies (trace (snd (run (cmd_verify reliable sample_telegram
                                              (text_message 7 (utf8 "/verify slow")))
                                         sample_process)))))
    by (right; left; reflexivity).
  split; [exact H|].
  destruct (verify_logs_iff_error_checking reliable sample_telegram sample_process
              7 (utf8 "/verify slow") (utf8 "/verify") (utf8 "slow") eq_refl)
    as [[_ K] _].
  exact (K H).
Defined.

(** ** Beyond the contracts: the health endpoint on any exchange *)

(** X17: whatever the handler object has written before, a GET is answered
    with status 200 exactly when the path is "/health", code point for code
    point.  Either way the Server and Date headers of [send_response] are
    queued and the headers are closed; only with 200 are the content type
    and the two bytes of "OK" added, and with 404 the body is left as it
    was.  The path is compared whole: "/health" followed by anything, a
    query string or a slash, gets 404 and no body. *)
Theorem health_path_is_compared_whole
    (version date path suffix : str) (x : HealthCheckHandler.Exchange) :
  suffix <> [] ->
  let y := HealthCheckHandler.do_GET version date path x in
  let library := [(utf8 "Server", version); (utf8 "Date", date)] in
  (HealthCheckHandler.status y = Some 200%N <-> path = utf8 "/health") /\
  (HealthCheckHandler.status y = Some 404%N <-> path <> utf8 "/health") /\
  HealthCheckHandler.headers_ended y = true /\
  (path = utf8 "/health" ->
     HealthCheckHandler.headers y =
       HealthCheckHandler.headers x ++ library ++
       [(utf8 "Content-type", utf8 "text/plain")] /\
     HealthCheckHandler.wfile y =
       HealthCheckHandler.wfile x ++ [Byte.x4f; Byte.x4b]) /\
  (path <> utf8 "/health" ->
     HealthCheckHandler.headers y = HealthCheckHandler.headers x ++ library /\
     HealthCheckHandler.wfile y = HealthCheckHandler.wfile x) /\
  HealthCheckHandler.status
    (HealthCheckHandler.do_GET version date (utf8 "/health" ++ suffix) x) =
    Some 404%N /\
  HealthCheckHandler.wfile
    (HealthCheckHandler.do_GET version date (utf8 "/health" ++ suffix) x) =
    HealthCheckHandler.wfile x.
Proof.
  intros Hs y library. subst y library.
  assert (Long : utf8 "/health" ++ suffix <> utf8 "/health").
  { intro H. rewrite <- (app_nil_r (utf8 "/health")) in H at 2.
    apply app_inv_head in H. contradiction. }
  unfold HealthCheckHandler.do_GET.
  rewrite (str_eqb_neq _ _ Long).
  destruct (str_eqb path (utf8 "/health")) eqn:E.
  - apply str_eqb_eq in E. subst path.
    cbn [HealthCheckHandler.send_response HealthCheckHandler.send_response_only
         HealthCheckHandler.send_header HealthCheckHandler.end_headers
         HealthCheckHandler.wfile_write HealthCheckHandler.status
         HealthCheckHandler.headers HealthCheckHandler.headers_ended
         HealthCheckHandler.wfile].
    rewrite <- !app_assoc.
    repeat split; intros; try reflexivity; try discriminate; try contradiction.
  - assert (Hne : path <> utf8 "/health").
    { intro H. apply str_eqb_eq in H. congruence. }
    cbn [HealthCheckHandler.send_response HealthCheckHandler.send_response_only
         HealthCheckHandler.send_header HealthCheckHandler.end_headers
         HealthCheckHandler.wfile_write HealthCheckHandler.status
         HealthCheckHandler.headers HealthCheckHandler.headers_ended
         HealthCheckHandler.wfile].
    rewrite <- !app_assoc.
    repeat split; intros; try reflexivity; try discriminate;
      try contradiction; try assumption.
Qed.

Lemma health_path_is_compared_whole_witness :
  utf8 "?probe=1" <> [] /\
  HealthCheckHandler.status
    (HealthCheckHandler.do_GET (utf8 "BaseHTTP/0.6 Python/3.11.2")
       (utf8 "Wed, 04 Nov 2026 12:00:00 GMT") (utf8 "/health" ++ utf8 "?probe=1")
       HealthCheckHandler.fresh) = Some 404%N.
Proof.
  split; [discriminate|].
  destruct (health_path_is_compared_whole (utf8 "BaseHTTP/0.6 Python/3.11.2")
              (utf8 "Wed, 04 Nov 2026 12:00:00 GMT") (utf8 "/health")
              (utf8 "?probe=1") HealthCheckHandler.fresh ltac:(discriminate))
    as [_ [_ [_ [_ [_ [H _]]]]]].
  exact H.
Defined.
